(** * Working-hours processing: POS CSV loader and payroll spreadsheet merger

    A shallow embedding of [processing_logic.py]: the CSV loader
    [read_pos_csv], the name canonicaliser [normalize], the spreadsheet
    merger [process_excel] and the naming of the output file
    [generate_output_filename], and of the callback [run_processing] of the
    window of [gui_app.py], with the properties of the specification stated
    and proved (or refuted) over the embedding, and further properties of
    the code after them.

    Modelling conventions.
    - A Python [str] is a [string] whose characters are read as the code
      points U+0000..U+00FF.
    - Hours are exact rationals ([Q]): the decimal text of the CSV denotes
      its exact value; the rounding and the range of binary64 are not
      modelled.  [NaN] (a missing value of pandas) is [None].
    - Python exceptions are explicit: a computation that may raise returns
      an [outcome], and [try ... except] is [try_except].
    - Calls to [logging] are recorded, in order, in a list of [log_call]s.
    - A CSV file is what pandas tokenises it into: the names of its header
      line and the field texts of its data lines.  Files with lines longer
      than the header, which the two reads of [read_pos_csv] treat
      differently, are not covered.
    - The worksheet of openpyxl is a list of rows (row [r] of the sheet is
      element [r - 1]); a row is a finite map from column letters to cells.
      A cell holds [None], a text or a number, and an assignment stores the
      value as it is given. *)

From Stdlib Require Import Ascii String QArith Qminmax Lqa.
From stdpp Require Import gmap strings list fin_maps.

(** ** Python builtins on strings *)

Module Py.

Definition code (c : ascii) : nat := nat_of_ascii c.

(** [str.isspace] on the code points below 256. *)
Definition is_space (c : ascii) : bool :=
  let n := code c in
  ((9 <=? n) && (n <=? 13)) || ((28 <=? n) && (n <=? 32))
  || (n =? 133) || (n =? 160).

(** One character of [str.lower]: A-Z, and the upper-case letters of the
    Latin-1 block (U+00C0..U+00DE without the multiplication sign). *)
Definition lower_char (c : ascii) : ascii :=
  let n := code c in
  if ((65 <=? n) && (n <=? 90))
     || ((192 <=? n) && (n <=? 222) && negb (n =? 215))
  then ascii_of_nat (n + 32) else c.

Definition lower (s : list ascii) : list ascii := map lower_char s.

Fixpoint lstrip (s : list ascii) : list ascii :=
  match s with
  | c :: s' => if is_space c then lstrip s' else s
  | [] => []
  end.

Definition rstrip (s : list ascii) : list ascii := rev (lstrip (rev s)).

(** [s.strip()] *)
Definition strip (s : list ascii) : list ascii := rstrip (lstrip s).

(** [s.split()]: the maximal runs of non-whitespace characters.  [cur]
    holds the run being read, last character first. *)
Fixpoint split_from (cur s : list ascii) : list (list ascii) :=
  match s with
  | [] => match cur with [] => [] | _ => [rev cur] end
  | c :: s' =>
      if is_space c
      then match cur with
           | [] => split_from [] s'
           | _ => rev cur :: split_from [] s'
           end
      else split_from (c :: cur) s'
  end.

Definition split (s : list ascii) : list (list ascii) := split_from [] s.

(** [sep.join(ws)] *)
Fixpoint join (sep : list ascii) (ws : list (list ascii)) : list ascii :=
  match ws with
  | [] => []
  | [w] => w
  | w :: ws' => w ++ sep ++ join sep ws'
  end.

(** Membership in the class [[0-9a-z]]. *)
Definition is_lower_alnum (c : ascii) : bool :=
  let n := code c in
  ((48 <=? n) && (n <=? 57)) || ((97 <=? n) && (n <=? 122)).

(** [re.sub(r'[^0-9a-z]', ' ', s)] *)
Definition blank_char (c : ascii) : ascii :=
  if is_lower_alnum c then c else " "%char.

Definition sub_non_alnum (s : list ascii) : list ascii := map blank_char s.

End Py.

Local Open Scope string_scope.

(** ** [normalize] *)

Definition normalize_chars (s : list ascii) : list ascii :=
  Py.join [" "%char] (Py.split (Py.sub_non_alnum (Py.lower (Py.strip s)))).

Definition normalize (s : string) : string :=
  string_of_list_ascii (normalize_chars (list_ascii_of_string s)).


(** ** Exceptions, logging and the machine state *)

Inductive exn_class :=
| FileNotFoundError | ValueError | IndexError | OtherError (name : string).

(** An exception object; [exn_msg e] is [str(e)]. *)
Record exn := Exn { exn_kind : exn_class; exn_msg : string }.

Inductive outcome (A : Type) :=
| Return (a : A)
| Raise (e : exn).
Arguments Return {A} a.
Arguments Raise {A} e.

Inductive level := DEBUG | INFO | WARNING | ERROR.

(** The messages the two functions hand to [logging], by their format
    string, with the values interpolated into it. *)
Inductive log_msg :=
| CutoffNotFound (csv_path : string)
| ConvertFailed (csv_path : string) (indices : list nat)
                (originals : list string)
| ReadRows (n : nat) (csv_path : string)
| CsvNotFound (csv_path : string)
| CsvError (csv_path : string) (e : exn)
| SkippingInvalid (raw_name : string) (hours : option Q)
| SkippingIgnored (raw_name : string)
| DuplicateEntry (raw_name : string)
| Updated (raw_name : string) (row : nat)
| AddedNew (raw_name : string) (row : nat)
| TemplateNotFound (template_path : string)
| ErrorMsg (e : exn).

Definition log_call : Type := level * log_msg.

(** *** Spreadsheet cells *)

Inductive cell_value :=
| VNone
| VStr (s : string)
| VNum (q : Q).

(** [PatternFill(start_color, end_color, fill_type)] *)
Record PatternFill :=
  { start_color : string; end_color : string; fill_type : string }.

Record cell := Cell { value : cell_value; fill : option PatternFill }.

Definition empty_cell : cell := Cell VNone None.

(** A sheet is its rows, first row first; [worksheet] abbreviates the type
    so that the list and map lemmas apply to it directly. *)
Abbreviation worksheet := (list (gmap string cell)).

(** *** The CSV file as pandas tokenises it

    [pd.read_csv(path, header=1, dtype=str, keep_default_na=False)]: the
    names of the header line and, per data line, the texts of its fields. *)
Record raw_frame := { columns : list string; rows : list (list string) }.

(** The files: what [pd.read_csv] and [openpyxl.load_workbook] find at a
    path ([inl e]: the file is there and reading it raises [e]), and the
    exception, if any, that saving to a path raises. *)
Record world := {
  csv_files : gmap string (exn + raw_frame);
  workbooks : gmap string (exn + worksheet);
  save_fault : string -> option exn
}.

Record machine := { files : world; log : list log_call }.

(** Computations that read and write the machine state and may raise. *)
Definition M (A : Type) : Type := machine -> outcome A * machine.

#[global] Instance M_ret : MRet M := fun A a m => (Return a, m).
#[global] Instance M_bind : MBind M := fun A B f c m =>
  match c m with
  | (Return a, m') => f a m'
  | (Raise e, m') => (Raise e, m')
  end.

Definition raise {A} (e : exn) : M A := fun m => (Raise e, m).

Definition lift {A} (o : outcome A) : M A := fun m => (o, m).

(** [try: body except e: handler(e)] *)
Definition try_except {A} (body : M A) (handler : exn -> M A) : M A :=
  fun m =>
    match body m with
    | (Return a, m') => (Return a, m')
    | (Raise e, m') => handler e m'
    end.

Definition logging (l : level) (msg : log_msg) : M unit :=
  fun m => (Return tt, {| files := files m; log := log m ++ [(l, msg)] |}).

Definition is_FileNotFoundError (e : exn) : bool :=
  match exn_kind e with FileNotFoundError => true | _ => false end.

Definition file_not_found (path : string) : exn :=
  Exn FileNotFoundError ("[Errno 2] No such file or directory: '" ++ path ++ "'").

(** ** The CSV loader *)

(** A row of the frame of the second read, after the hours are made
    numeric: its index label and the two selected columns, [None] for a
    missing value. *)
Record frame_row :=
  { index : nat; Name : option string; Work_Hours : option Q }.

Abbreviation dataframe := (list frame_row).

Definition pd_read_csv (csv_path : string) : M raw_frame :=
  fun m =>
    match csv_files (files m) !! csv_path with
    | None => (Raise (file_not_found csv_path), m)
    | Some (inl e) => (Raise e, m)
    | Some (inr f) => (Return f, m)
    end.

(** [row.iloc[i]] on a row of a frame with [width] columns; a line with
    fewer fields has no text at the positions it lacks. *)
Definition iloc (width : nat) (row : list string) (i : nat)
  : outcome (option string) :=
  if Nat.ltb i width then Return (row !! i)
  else Raise (Exn IndexError "single positional indexer is out-of-bounds").

(** The loop over [full_df.iterrows()]: the index of the first row whose
    second field is [Role], [None] while [cutoff_index] stays [-1]. *)
Fixpoint scan_cutoff (width index : nat) (rs : list (list string))
  : outcome (option nat) :=
  match rs with
  | [] => Return None
  | row :: rest =>
      match iloc width row 1 with
      | Raise e => Raise e
      | Return v =>
          if bool_decide (v = Some "Role") then Return (Some index)
          else scan_cutoff width (S index) rest
      end
  end.

(** The texts pandas reads as a missing value by default. *)
Definition na_values : list string :=
  [ ""; "#N/A"; "#N/A N/A"; "#NA"; "-1.#IND"; "-1.#QNAN"; "-NaN"; "-nan";
    "1.#IND"; "1.#QNAN"; "<NA>"; "N/A"; "NA"; "NULL"; "NaN"; "None";
    "n/a"; "nan"; "null" ].

Definition na_filter (field : option string) : option string :=
  match field with
  | Some s => if bool_decide (s ∈ na_values) then None else Some s
  | None => None
  end.

Fixpoint index_of (name : string) (names : list string) : option nat :=
  match names with
  | [] => None
  | n :: rest => if bool_decide (n = name) then Some 0%nat
                 else S <$> index_of name rest
  end.

(** The two selected columns of the data lines, each row under its index
    label, with the default missing-value texts recognised. *)
Definition select_columns (i j : nat) (lines : list (list string))
  : list (nat * (option string * option string)) :=
  imap (fun k row => (k, (na_filter (row !! i), na_filter (row !! j)))) lines.

(** The second read, [pd.read_csv(path, header=1, usecols=["Name", "Work
    Hours"], nrows=nrows, dtype=str)]: the same file (one whose lines the
    first read took as they are), only its first [nrows] data lines and
    the two columns. *)
Definition pd_read_csv_usecols (csv_path : string) (nrows : nat)
  : M (list (nat * (option string * option string))) :=
  full ← pd_read_csv csv_path;
  match index_of "Name" (columns full), index_of "Work Hours" (columns full) with
  | Some i, Some j => mret (select_columns i j (take nrows (rows full)))
  | _, _ => raise (Exn ValueError "Usecols do not match columns")
  end.

Definition is_digit (c : ascii) : bool :=
  Nat.leb 48 (Py.code c) && Nat.leb (Py.code c) 57.

(** [.str.replace(r'[^\d.]', '', regex=True)] on one text. *)
Definition keep_digits_and_dots (s : string) : string :=
  string_of_list_ascii
    (List.filter (fun c => is_digit c || bool_decide (c = "."%char))
                 (list_ascii_of_string s)).

(** The value of a run of decimal digits, [None] on any other character. *)
Fixpoint read_digits (acc : N) (s : list ascii) : option N :=
  match s with
  | [] => Some acc
  | c :: s' =>
      if is_digit c
      then read_digits (10 * acc + (N.of_nat (Py.code c) - 48))%N s'
      else None
  end.

(** The text before the first dot and, when there is one, the text after. *)
Fixpoint split_dot (s : list ascii) : list ascii * option (list ascii) :=
  match s with
  | [] => ([], None)
  | c :: s' =>
      if bool_decide (c = "."%char) then ([], Some s')
      else let (a, b) := split_dot s' in (c :: a, b)
  end.

(** The number a text of digits and dots denotes: digits with at most
    one dot and at least one digit; anything else does not parse.  (The
    loader only parses texts it has cleaned down to digits and dots.) *)
Definition parse_number (s : string) : option Q :=
  let (ip, fp) := split_dot (list_ascii_of_string s) in
  let fp := default [] fp in
  match ip, fp with
  | [], [] => None
  | _, _ =>
      match read_digits 0 ip, read_digits 0 fp with
      | Some i, Some f =>
          let scale := (10 ^ N.of_nat (length fp))%N in
          Some (Qred (Z.of_N (i * scale + f) # Pos.of_nat (N.to_nat scale)))
      | _, _ => None
      end
  end.

(** [pd.to_numeric(..., errors='coerce')] on one cell. *)
Definition to_numeric (c : option string) : option Q := c ≫= parse_number.

(** Cleaning and conversion of the ["Work Hours"] cell of one row. *)
Definition clean_hours (c : option string) : option Q :=
  to_numeric (keep_digits_and_dots <$> c).

(** [failed_mask]: the conversion gave a missing value for a cell that
    held a non-empty text. *)
Definition failed (original : option string) (converted : option Q) : bool :=
  match converted, original with
  | None, Some s => negb (String.eqb s "")
  | _, _ => false
  end.

Definition notna {A} (c : option A) : bool :=
  match c with Some _ => true | None => false end.

(** [df.dropna(subset=["Name", "Work Hours"])] *)
Definition dropna (df : dataframe) : dataframe :=
  List.filter (fun r => notna (Name r) && notna (Work_Hours r)) df.

(** The frame once ["Work Hours"] is cleaned and made numeric. *)
Definition convert_hours (df : list (nat * (option string * option string)))
  : dataframe :=
  map (fun r => {| index := r.1; Name := r.2.1;
                   Work_Hours := clean_hours r.2.2 |}) df.

(** The body of the [try].  The frame of the second read always has its
    ["Work Hours"] column (the read raises when the header lacks it), so
    the [else] branch of the test on [df.columns] is never taken and is
    left out. *)
Definition read_pos_csv_body (csv_path : string) : M (option dataframe) :=
  full_df ← pd_read_csv csv_path;
  found ← lift (scan_cutoff (length (columns full_df)) 0 (rows full_df));
  cutoff_index ←
    match found with
    | Some k => mret k
    | None => logging WARNING (CutoffNotFound csv_path);;
              mret (length (rows full_df))
    end;
  df ← pd_read_csv_usecols csv_path cutoff_index;
  let failed_rows :=
    List.filter (fun r => failed r.2.2 (clean_hours r.2.2)) df in
  match failed_rows with
  | [] => mret tt
  | _ => logging WARNING
           (ConvertFailed csv_path (map fst failed_rows)
              (omap (fun r => r.2.2) failed_rows))
  end;;
  let df := dropna (convert_hours df) in
  logging INFO (ReadRows (length df) csv_path);;
  mret (Some df).

Definition read_pos_csv (csv_path : string) : M (option dataframe) :=
  try_except (read_pos_csv_body csv_path)
    (fun e =>
       if is_FileNotFoundError e
       then logging ERROR (CsvNotFound csv_path);; mret None
       else logging ERROR (CsvError csv_path e);; mret None).

(** ** The worksheet *)

(** [ws.max_row]: the largest row that holds a cell, [1] on an empty
    sheet. *)
Definition max_row (ws : worksheet) : nat := Nat.max 1 (length ws).

(** [ws[f'{col}{r}']]: rows count from 1; a cell that does not exist yet
    reads as an empty one. *)
Definition get_cell (ws : worksheet) (col : string) (r : nat) : cell :=
  match r with
  | O => empty_cell
  | S i => default empty_cell (ws !! i ≫= fun row => row !! col)
  end.

(** Changing one cell; the sheet grows when the row is below its last. *)
Definition alter_cell (f : cell -> cell) (col : string) (r : nat)
    (ws : worksheet) : worksheet :=
  match r with
  | O => ws
  | S i =>
      alter (fun row => <[col := f (default empty_cell (row !! col))]> row) i
            (ws ++ replicate (r - length ws) ∅)%list
  end.

(** [ws[f'{col}{r}'] = v], and [ws[f'{col}{r}'].value = v]: the value
    changes, the style of the cell stays. *)
Definition set_value (col : string) (r : nat) (v : cell_value)
  : worksheet -> worksheet :=
  alter_cell (fun c => Cell v (fill c)) col r.

(** [ws[f'{col}{r}'].fill = f] *)
Definition set_fill (col : string) (r : nat) (f : PatternFill)
  : worksheet -> worksheet :=
  alter_cell (fun c => Cell (value c) (Some f)) col r.

(** [ws.insert_rows(idx)]: the cells of row [idx] and below move down by
    one row, leaving row [idx] without cells; nothing moves when [idx] is
    below the last row. *)
Definition insert_rows (idx : nat) (ws : worksheet) : worksheet :=
  if Nat.leb 1 idx && Nat.leb idx (length ws)
  then (take (idx - 1) ws ++ ∅ :: drop (idx - 1) ws)%list
  else ws.

Definition load_workbook (template_path : string) : M worksheet :=
  fun m =>
    match workbooks (files m) !! template_path with
    | None => (Raise (file_not_found template_path), m)
    | Some (inl e) => (Raise e, m)
    | Some (inr ws) => (Return ws, m)
    end.

(** [wb.save(output_path)] *)
Definition save (output_path : string) (ws : worksheet) : M unit :=
  fun m =>
    match save_fault (files m) output_path with
    | Some e => (Raise e, m)
    | None =>
        (Return tt,
         {| files := {| csv_files := csv_files (files m);
                        workbooks := <[output_path := inr ws]> (workbooks (files m));
                        save_fault := save_fault (files m) |};
            log := log m |})
    end.

(** ** The merger *)

(** [range(a, b)] *)
Definition py_range (a b : nat) : list nat := seq a (b - a).

(** [min(a, b)] and [max(a, b)] of Python: the first argument unless the
    second is strictly smaller (larger). *)
Definition py_min (a b : Q) : Q := if Qle_bool a b then a else b.
Definition py_max (a b : Q) : Q := if Qle_bool b a then a else b.

(** [max(...)] of a sequence of row numbers. *)
Definition py_max_seq (l : list nat) : outcome nat :=
  match l with
  | [] => Raise (Exn ValueError "max() arg is an empty sequence")
  | x :: l' => Return (foldl Nat.max x l')
  end.

Definition reg_hours (hours : Q) : Q := py_min hours 40.
Definition ot_hours (hours : Q) : Q := py_max (hours - 40) 0.

(** Truth value of a cell value: [None], the empty text and zero are
    false. *)
Definition truthy (v : cell_value) : bool :=
  match v with
  | VNone => false
  | VStr s => negb (String.eqb s "")
  | VNum q => negb (Qeq_bool q 0)
  end.

(** [ot_hours or ''] *)
Definition or_blank (q : Q) : cell_value :=
  if truthy (VNum q) then VNum q else VStr "".

(** [not raw_name.strip()] *)
Definition blank (raw_name : string) : bool :=
  match Py.strip (list_ascii_of_string raw_name) with
  | [] => true
  | _ => false
  end.

(** [str(row['Name'])]; a missing value prints as [nan]. *)
Definition str_name (n : option string) : string := default "nan" n.

Definition week_columns (week_choice : string) : option (string * string) :=
  if String.eqb week_choice "Week 1" then Some ("S", "T")
  else if String.eqb week_choice "Week 2" then Some ("V", "W")
  else None.

Definition red_fill : PatternFill :=
  {| start_color := "FFFF0000"; end_color := "FFFF0000"; fill_type := "solid" |}.

Definition ignore_names_set : gset string :=
  {[ normalize "H-R Host"; normalize "Online";
     normalize "S-COMMON Server"; normalize "S-Johnny Server" ]}.

(** The rows from 2 to the last whose column-[B] cell has a true value. *)
Definition b_rows (ws : worksheet) : list nat :=
  List.filter (fun r => truthy (value (get_cell ws "B" r)))
              (py_range 2 (max_row ws + 1)).

(** What the loop carries from one record to the next. *)
Record merge_state := { sheet : worksheet; processed : gset string }.

Section Merger.

(** [str] of Python on a number held by a cell. *)
Variable num_str : Q -> string.

Definition py_str (v : cell_value) : string :=
  match v with
  | VNone => "None"
  | VStr s => s
  | VNum q => num_str q
  end.

(** The loop filling [name_to_row]: a later row replaces an earlier one
    with the same key. *)
Definition build_name_to_row (ws : worksheet) : gmap string nat :=
  foldl (fun m row =>
           let val := value (get_cell ws "C" row) in
           if truthy val then <[normalize (py_str val) := row]> m else m)
        ∅ (py_range 2 (max_row ws + 1)).

(** One turn of the loop over [csv_data.iterrows()]. *)
Definition merge_row (reg_col ot_col : string) (name_to_row : gmap string nat)
    (st : merge_state) (row : frame_row) : M merge_state :=
  let raw_name := str_name (Name row) in
  match blank raw_name, Work_Hours row with
  | false, Some hours =>
      let key := normalize raw_name in
      if bool_decide (key ∈ ignore_names_set)
      then logging INFO (SkippingIgnored raw_name);; mret st
      else if bool_decide (key ∈ processed st)
      then logging WARNING (DuplicateEntry raw_name);; mret st
      else
        let processed' := processed st ∪ {[ key ]} in
        match name_to_row !! key with
        | Some (S _ as target) =>
            let ws1 := set_value reg_col target (VNum (reg_hours hours)) (sheet st) in
            let ws2 := set_value ot_col target (or_blank (ot_hours hours)) ws1 in
            logging DEBUG (Updated raw_name target);;
            mret {| sheet := ws2; processed := processed' |}
        | _ =>
            last_b ← lift (py_max_seq (b_rows (sheet st)));
            let ins := (last_b + 1)%nat in
            let ws1 := insert_rows ins (sheet st) in
            let ws2 := set_value "B" ins (VStr raw_name) ws1 in
            let ws3 := set_fill "B" ins red_fill ws2 in
            let ws4 := set_value reg_col ins (VNum (reg_hours hours)) ws3 in
            let ws5 := set_value ot_col ins (or_blank (ot_hours hours)) ws4 in
            logging INFO (AddedNew raw_name ins);;
            mret {| sheet := ws5; processed := processed' |}
        end
  | _, hours =>
      logging WARNING (SkippingInvalid raw_name hours);; mret st
  end.

Fixpoint merge_rows (reg_col ot_col : string) (name_to_row : gmap string nat)
    (st : merge_state) (data : dataframe) : M merge_state :=
  match data with
  | [] => mret st
  | row :: rest =>
      st' ← merge_row reg_col ot_col name_to_row st row;
      merge_rows reg_col ot_col name_to_row st' rest
  end.

(** The body of the [try]. *)
Definition process_excel_body (template_path : string) (csv_data : dataframe)
    (week_choice output_path : string) : M (bool * string) :=
  ws ← load_workbook template_path;
  match week_columns week_choice with
  | None => mret (false, "Invalid week choice. Must be 'Week 1' or 'Week 2'.")
  | Some (reg_col, ot_col) =>
      let name_to_row := build_name_to_row ws in
      st ← merge_rows reg_col ot_col name_to_row
             {| sheet := ws; processed := ∅ |} csv_data;
      save output_path (sheet st);;
      mret (true, "Saved to " ++ output_path)
  end.

(** [csv_data] is [None] or a frame; [csv_data.empty] holds of a frame
    without rows. *)
Definition process_excel (template_path : string) (csv_data : option dataframe)
    (week_choice output_path : string) : M (bool * string) :=
  match csv_data with
  | None | Some [] => mret (false, "No valid CSV data provided.")
  | Some data =>
      try_except
        (process_excel_body template_path data week_choice output_path)
        (fun e =>
           if is_FileNotFoundError e
           then logging ERROR (TemplateNotFound template_path);;
                mret (false, "Template not found: " ++ template_path)
           else logging ERROR (ErrorMsg e);;
                mret (false, "Error processing: " ++ exn_msg e))
  end.

End Merger.

Local Open Scope list_scope.

(** ** The name of the output file

    [generate_output_filename] reads its path through [pathlib].  The
    embedding follows [PurePosixPath] with the rule for suffixes of Python
    up to 3.13 (a name that ends in a dot has no suffix); drives and the
    backslash separator of Windows paths are not modelled. *)

Module PurePath.

(** [s.split(sep)]: the pieces between the separators, the empty ones
    among them.  [cur] holds the piece being read, last character first. *)
Fixpoint split_on (sep : ascii) (cur s : list ascii) : list (list ascii) :=
  match s with
  | [] => [rev cur]
  | c :: s' =>
      if bool_decide (c = sep) then rev cur :: split_on sep [] s'
      else split_on sep (c :: cur) s'
  end.

(** The components of the path below its root: the pieces between the
    slashes that are neither empty nor a single dot. *)
Definition tail (path : list ascii) : list (list ascii) :=
  List.filter (fun x => negb (bool_decide (x = []))
                        && negb (bool_decide (x = ["."%char])))
              (split_on "/"%char [] path).

(** [p.name]: the last component, the empty text when there is none. *)
Definition name (path : list ascii) : list ascii :=
  default [] (last (tail path)).

(** [s.rfind('.')], [None] for [-1]. *)
Fixpoint rfind_dot (s : list ascii) : option nat :=
  match s with
  | [] => None
  | c :: s' =>
      match rfind_dot s' with
      | Some i => Some (S i)
      | None => if bool_decide (c = "."%char) then Some 0%nat else None
      end
  end.

(** The test [0 < i < len(name) - 1] on [i = name.rfind('.')]: the index
    of the dot the suffix starts at, when the name has a suffix. *)
Definition suffix_index (nm : list ascii) : option nat :=
  match rfind_dot nm with
  | Some i =>
      if Nat.ltb 0 i && Nat.ltb i (length nm - 1) then Some i else None
  | None => None
  end.

(** [p.suffix] *)
Definition suffix (path : list ascii) : list ascii :=
  match suffix_index (name path) with
  | Some i => drop i (name path)
  | None => []
  end.

(** [p.stem] *)
Definition stem (path : list ascii) : list ascii :=
  match suffix_index (name path) with
  | Some i => take i (name path)
  | None => name path
  end.

End PurePath.

Definition generate_output_filename (template_path suffix : string) : string :=
  let p := list_ascii_of_string template_path in
  (string_of_list_ascii (PurePath.stem p) ++ suffix
   ++ string_of_list_ascii (PurePath.suffix p))%string.

(** The value of the parameter [suffix] when the call leaves it out. *)
Definition default_suffix : string := "_processed".

(** ** The window ([gui_app.py])

    The Tk variables of [ExcelProcessorApp] and the state of its run
    button are the fields of a record; a call to [messagebox] is recorded,
    in order, in the field [dialogs].  What the operating system answers
    is held by [os]: the home folder, which paths exist, and the exception,
    if any, that creating a folder raises.  Paths are joined as
    [posixpath] joins them.  The calls into Tk are taken not to raise. *)

Module os_path.

(** [os.path.join(a, b)] *)
Definition join (a b : string) : string :=
  if match b with
     | String c _ => bool_decide (c = "/"%char)
     | EmptyString => false
     end
  then b
  else if String.eqb a ""
          || bool_decide (last (list_ascii_of_string a) = Some "/"%char)
  then (a ++ b)%string
  else (a ++ "/" ++ b)%string.

(** [s.rfind(c)], [None] for [-1]. *)
Fixpoint rfind (c : ascii) (s : list ascii) : option nat :=
  match s with
  | [] => None
  | d :: s' =>
      match rfind c s' with
      | Some i => Some (S i)
      | None => if bool_decide (d = c) then Some 0%nat else None
      end
  end.

(** [os.path.basename(p)]: what follows the last slash. *)
Definition basename (p : string) : string :=
  let s := list_ascii_of_string p in
  string_of_list_ascii
    (match rfind "/"%char s with
     | Some i => drop (S i) s
     | None => s
     end).

End os_path.

Record os := {
  home : string;
  path_exists : string -> bool;
  makedirs_fault : string -> option exn
}.

(** [tk.NORMAL] and [tk.DISABLED] *)
Inductive tk_state := NORMAL | DISABLED.

(** A call to [messagebox], with its title and its message. *)
Inductive dialog :=
| showerror (title message : string)
| showinfo (title message : string).

Record ExcelProcessorApp := {
  csv_file_path : string;
  xlsx_file_path : string;
  selected_week : string;
  status_message : string;
  run_button : tk_state;
  dialogs : list dialog
}.

(** The window as [__init__] leaves it. *)
Definition init : ExcelProcessorApp :=
  {| csv_file_path := "No file selected";
     xlsx_file_path := "No file selected";
     selected_week := "Week 1";
     status_message := "";
     run_button := NORMAL;
     dialogs := [] |}.

(** [self.status_message.set(s)] *)
Definition set_status (s : string) (a : ExcelProcessorApp) : ExcelProcessorApp :=
  {| csv_file_path := csv_file_path a;
     xlsx_file_path := xlsx_file_path a;
     selected_week := selected_week a;
     status_message := s;
     run_button := run_button a;
     dialogs := dialogs a |}.

(** [self.run_button.config(state=s)] *)
Definition config_run_button (s : tk_state) (a : ExcelProcessorApp)
  : ExcelProcessorApp :=
  {| csv_file_path := csv_file_path a;
     xlsx_file_path := xlsx_file_path a;
     selected_week := selected_week a;
     status_message := status_message a;
     run_button := s;
     dialogs := dialogs a |}.

Definition show (d : dialog) (a : ExcelProcessorApp) : ExcelProcessorApp :=
  {| csv_file_path := csv_file_path a;
     xlsx_file_path := xlsx_file_path a;
     selected_week := selected_week a;
     status_message := status_message a;
     run_button := run_button a;
     dialogs := dialogs a ++ [d] |}.

(** The line feed of the messages. *)
Definition newline : string := String (ascii_of_nat 10) EmptyString.

Definition is_PermissionError (e : exn) : bool :=
  match exn_kind e with
  | OtherError name => String.eqb name "PermissionError"
  | _ => false
  end.

Definition is_KeyError (e : exn) : bool :=
  match exn_kind e with
  | OtherError name => String.eqb name "KeyError"
  | _ => false
  end.

(** The [except] clauses of [run_processing]. *)
Definition on_exception (e : exn) (a : ExcelProcessorApp) : ExcelProcessorApp :=
  if is_FileNotFoundError e then
    set_status "Error: File not found."
      (show (showerror "File Error"
               ("File not found during processing:" ++ newline ++ exn_msg e)) a)
  else if is_PermissionError e then
    set_status "Error: Permission denied."
      (show (showerror "Permission Error"
               ("Permission denied. Cannot read/write file:" ++ newline
                ++ exn_msg e)) a)
  else if is_KeyError e then
    set_status "Error: Data mismatch."
      (show (showerror "Data Error"
               ("Missing expected column or data in input files: "
                ++ exn_msg e)) a)
  else
    set_status "An unexpected error occurred."
      (show (showerror "Unexpected Error"
               ("An unexpected error occurred:" ++ newline ++ exn_msg e)) a).

Section Window.

Variable env : os.
Variable num_str : Q -> string.

(** The folder and the path [run_processing] writes to. *)
Definition downloads_folder : string := os_path.join (home env) "Downloads".

Definition output_path_of (xlsx_path : string) : string :=
  os_path.join downloads_folder (generate_output_filename xlsx_path default_suffix).

(** [run_processing]: the window and the machine after the call.  The
    [finally] clause enables the button on every way out of the [try]. *)
Definition run_processing (s : ExcelProcessorApp * machine)
  : ExcelProcessorApp * machine :=
  let (a, m) := s in
  let csv_path := csv_file_path a in
  let xlsx_path := xlsx_file_path a in
  let week := selected_week a in
  if String.eqb csv_path "No file selected" || negb (path_exists env csv_path)
  then (show (showerror "Error" "Please select a valid POS CSV file.") a, m)
  else if String.eqb xlsx_path "No file selected"
          || negb (path_exists env xlsx_path)
  then (show (showerror "Error" "Please select a valid Excel template file.") a, m)
  else
    let a := set_status "Processing..." (config_run_button DISABLED a) in
    match (if path_exists env downloads_folder then None
           else makedirs_fault env downloads_folder) with
    | Some e => (config_run_button NORMAL (on_exception e a), m)
    | None =>
        let output_path := output_path_of xlsx_path in
        let a := set_status "Reading CSV..." a in
        match read_pos_csv csv_path m with
        | (Return None, m1) =>
            let a := show (showerror "CSV Read Error"
                             ("Failed to read or process CSV file: "
                              ++ os_path.basename csv_path
                              ++ ". Check logs or file format.")) a in
            let a := set_status "CSV read failed." a in
            let a := config_run_button NORMAL a in
            (config_run_button NORMAL a, m1)
        | (Return (Some pos_data), m1) =>
            let a := set_status "Processing Excel..." a in
            match process_excel num_str xlsx_path (Some pos_data) week
                    output_path m1 with
            | (Return (true, message), m2) =>
                let a := show (showinfo "Success"
                                 ("Processing complete!" ++ newline
                                  ++ "Output saved to:" ++ newline
                                  ++ output_path)) a in
                (config_run_button NORMAL (set_status "Complete!" a), m2)
            | (Return (false, message), m2) =>
                let a := show (showerror "Processing Error"
                                 ("Failed to process Excel file:" ++ newline
                                  ++ message)) a in
                (config_run_button NORMAL
                   (set_status "Excel processing failed." a), m2)
            | (Raise e, m2) => (config_run_button NORMAL (on_exception e a), m2)
            end
        | (Raise e, m1) => (config_run_button NORMAL (on_exception e a), m1)
        end
    end.

End Window.

(** ** Vocabulary of the properties *)

(** A word: a non-empty run of characters of [[0-9a-z]]. *)
Definition word (w : list ascii) : Prop :=
  w <> [] /\ Forall (fun c => Py.is_lower_alnum c = true) w.

Definition blank_or_alnum (c : ascii) : Prop :=
  c = " "%char \/ Py.is_lower_alnum c = true.

Definition str_lower (s : string) : string :=
  string_of_list_ascii (Py.lower (list_ascii_of_string s)).

(** A data line whose second field is the text [Role]. *)
Definition is_role_line (line : list string) : Prop := line !! 1%nat = Some "Role".

#[global] Instance is_role_line_dec : forall line, Decision (is_role_line line) :=
  fun line => decide (line !! 1%nat = Some "Role").

(** The index of the first such line, when there is one. *)
Definition cutoff_row (full : raw_frame) : option nat :=
  fst <$> list_find is_role_line (rows full).

(** The data lines before the cutoff; all of them without a cutoff. *)
Definition usable_rows (full : raw_frame) : list (list string) :=
  match cutoff_row full with
  | Some k => take k (rows full)
  | None => rows full
  end.

(** What [read_pos_csv] logs on a file it reads to the end. *)
Definition loader_log (csv_path : string) (full : raw_frame) (i j : nat)
  : list log_call :=
  let df := select_columns i j (usable_rows full) in
  let failed_rows := List.filter (fun r => failed r.2.2 (clean_hours r.2.2)) df in
  (match cutoff_row full with
   | Some _ => []
   | None => [(WARNING, CutoffNotFound csv_path)]
   end
   ++ match failed_rows with
      | [] => []
      | _ => [(WARNING, ConvertFailed csv_path (map fst failed_rows)
                          (omap (fun r => r.2.2) failed_rows))]
      end
   ++ [(INFO, ReadRows (length (dropna (convert_hours df))) csv_path)])%list.

Definition sample_csv : raw_frame :=
  {| columns := ["Name"; "Role"; "Work Hours"];
     rows := [ ["Jane Doe"; "Cook"; "45"];
               ["Online"; "Host"; "10 h"];
               ["Totals"; "Role"; "55"];
               ["Cook"; "x"; "45"] ] |}.

Definition sample_world : world :=
  {| csv_files := {[ "pos.csv" := inr sample_csv ]};
     workbooks := ∅;
     save_fault := fun _ => None |}.

(** Row [k] is the last row, from row 2 on, whose column-[B] cell has a
    true value. *)
Definition last_b_row (ws : worksheet) (k : nat) : Prop :=
  2 <= k
  /\ truthy (value (get_cell ws "B" k)) = true
  /\ forall r, k < r -> truthy (value (get_cell ws "B" r)) = false.

(** The two writes of the hours into row [r]. *)
Definition write_hours (reg_col ot_col : string) (r : nat) (hours : Q)
    (ws : worksheet) : worksheet :=
  set_value ot_col r (or_blank (ot_hours hours))
    (set_value reg_col r (VNum (reg_hours hours)) ws).

(** The insertion of a row for an unmatched employee at row [ins]. *)
Definition insert_employee (reg_col ot_col : string) (ins : nat)
    (raw_name : string) (hours : Q) (ws : worksheet) : worksheet :=
  write_hours reg_col ot_col ins hours
    (set_fill "B" ins red_fill
       (set_value "B" ins (VStr raw_name) (insert_rows ins ws))).

Definition raw_name_of (row : frame_row) : string := str_name (Name row).
Definition key_of (row : frame_row) : string := normalize (raw_name_of row).

(** A record with a non-blank name and hours, which the loop does not skip
    as invalid. *)
Definition valid_row (row : frame_row) (hours : Q) : Prop :=
  blank (raw_name_of row) = false /\ Work_Hours row = Some hours.

(** The log calls that go with a write into the sheet. *)
Definition is_write (c : log_call) : bool :=
  match c.2 with
  | Updated _ _ | AddedNew _ _ => true
  | _ => false
  end.

Definition add_log (m : machine) (c : log_call) : machine :=
  {| files := files m; log := log m ++ [c] |}.

(** One turn of the loop as a relation: from the state before a record to
    the state after it and the call it logs, or to the exception. *)
Inductive row_step (reg_col ot_col : string) (name_to_row : gmap string nat)
    (st : merge_state) (row : frame_row)
  : outcome (merge_state * log_call) -> Prop :=
| step_invalid :
    blank (raw_name_of row) = true \/ Work_Hours row = None ->
    row_step reg_col ot_col name_to_row st row
      (Return (st, (WARNING, SkippingInvalid (raw_name_of row) (Work_Hours row))))
| step_ignored hours :
    valid_row row hours ->
    key_of row ∈ ignore_names_set ->
    row_step reg_col ot_col name_to_row st row
      (Return (st, (INFO, SkippingIgnored (raw_name_of row))))
| step_duplicate hours :
    valid_row row hours ->
    key_of row ∉ ignore_names_set ->
    key_of row ∈ processed st ->
    row_step reg_col ot_col name_to_row st row
      (Return (st, (WARNING, DuplicateEntry (raw_name_of row))))
| step_update hours target :
    valid_row row hours ->
    key_of row ∉ ignore_names_set ->
    key_of row ∉ processed st ->
    name_to_row !! key_of row = Some target ->
    target <> 0%nat ->
    row_step reg_col ot_col name_to_row st row
      (Return ({| sheet := write_hours reg_col ot_col target hours (sheet st);
                  processed := processed st ∪ {[ key_of row ]} |},
               (DEBUG, Updated (raw_name_of row) target)))
| step_insert hours last_b :
    valid_row row hours ->
    key_of row ∉ ignore_names_set ->
    key_of row ∉ processed st ->
    name_to_row !! key_of row = None \/ name_to_row !! key_of row = Some 0%nat ->
    py_max_seq (b_rows (sheet st)) = Return last_b ->
    row_step reg_col ot_col name_to_row st row
      (Return ({| sheet := insert_employee reg_col ot_col (last_b + 1)
                             (raw_name_of row) hours (sheet st);
                  processed := processed st ∪ {[ key_of row ]} |},
               (INFO, AddedNew (raw_name_of row) (last_b + 1)%nat)))
| step_no_anchor hours :
    valid_row row hours ->
    key_of row ∉ ignore_names_set ->
    key_of row ∉ processed st ->
    name_to_row !! key_of row = None \/ name_to_row !! key_of row = Some 0%nat ->
    b_rows (sheet st) = [] ->
    row_step reg_col ot_col name_to_row st row
      (Raise (Exn ValueError "max() arg is an empty sequence")).

(** The loop as a relation: the calls logged, one per record gone through,
    and how the loop ends. *)
Inductive rows_run (reg_col ot_col : string) (name_to_row : gmap string nat)
  : merge_state -> dataframe -> list log_call -> outcome merge_state -> Prop :=
| run_done st :
    rows_run reg_col ot_col name_to_row st [] [] (Return st)
| run_raise st row rest e :
    row_step reg_col ot_col name_to_row st row (Raise e) ->
    rows_run reg_col ot_col name_to_row st (row :: rest) [] (Raise e)
| run_next st row rest st1 c entries o :
    row_step reg_col ot_col name_to_row st row (Return (st1, c)) ->
    rows_run reg_col ot_col name_to_row st1 rest entries o ->
    rows_run reg_col ot_col name_to_row st (row :: rest) (c :: entries) o.

(** What [merge_row] does with the machine, from the outcome of the step. *)
Definition after_step (m : machine) (res : outcome (merge_state * log_call))
  : outcome merge_state * machine :=
  match res with
  | Return (st, c) => (Return st, add_log m c)
  | Raise e => (Raise e, m)
  end.

Definition add_logs (m : machine) (cs : list log_call) : machine :=
  {| files := files m; log := log m ++ cs |}.

Definition text_cell (s : string) : cell := Cell (VStr s) None.

(** A small template: a header row and the rows of two employees. *)
Definition small_template : worksheet :=
  [ {[ "B" := text_cell "No"; "C" := text_cell "Employee" ]};
    {[ "B" := text_cell "1"; "C" := text_cell "Jane Doe" ]};
    {[ "B" := text_cell "2"; "C" := text_cell "Bob Ray" ]} ].

Definition small_world : world :=
  {| csv_files := ∅;
     workbooks := {[ "template.xlsx" := inr small_template ]};
     save_fault := fun _ => None |}.

Definition start : machine := {| files := small_world; log := [] |}.

Definition record (i : nat) (name : string) (hours : Q) : frame_row :=
  {| index := i; Name := Some name; Work_Hours := Some hours |}.

(** The rows added in a run, in order: name and row of each
    [AddedNew] call. *)
Definition added_rows (entries : list log_call) : list (string * nat) :=
  omap (fun c => match c.2 with
                 | AddedNew name r => Some (name, r)
                 | _ => None
                 end) entries.

Definition consecutive (l : list (string * nat)) : Prop :=
  forall k n1 r1 n2 r2,
    l !! k = Some (n1, r1) -> l !! S k = Some (n2, r2) -> r2 = S r1.


(** The handler of [process_excel]. *)
Definition on_error (template_path : string) (e : exn) : M (bool * string) :=
  if is_FileNotFoundError e
  then logging ERROR (TemplateNotFound template_path);;
       mret (false, "Template not found: " ++ template_path)%string
  else logging ERROR (ErrorMsg e);;
       mret (false, "Error processing: " ++ exn_msg e)%string.

(** A template whose column B is empty. *)
Definition no_b_template : worksheet :=
  [ {[ "C" := text_cell "Employee" ]};
    {[ "C" := text_cell "Jane Doe" ]};
    {[ "C" := text_cell "Bob Ray" ]} ].

Definition no_b_world : world :=
  {| csv_files := ∅;
     workbooks := {[ "template.xlsx" := inr no_b_template ]};
     save_fault := fun _ => None |}.

(** The column-[C] cell of row [r] has a true value that normalizes to
    [key]. *)
Definition names_row (num_str : Q -> string) (ws : worksheet) (key : string)
    (r : nat) : Prop :=
  truthy (value (get_cell ws "C" r)) = true
  /\ normalize (py_str num_str (value (get_cell ws "C" r))) = key.

(** A template with an employee below the last row that has a B value. *)
Definition trailing_template : worksheet :=
  [ {[ "B" := text_cell "No"; "C" := text_cell "Employee" ]};
    {[ "B" := text_cell "1"; "C" := text_cell "Jane Doe" ]};
    {[ "C" := text_cell "Bob Ray" ]} ].

Definition trailing_world : world :=
  {| csv_files := ∅;
     workbooks := {[ "template.xlsx" := inr trailing_template ]};
     save_fault := fun _ => None |}.

(** A text that can be the last component of a path. *)
Definition file_name (f : list ascii) : Prop :=
  ("/"%char ∉ f) /\ f <> [] /\ f <> ["."%char].







(** The lines whose hours text is there and holds no number, each with
    its index: what the warning about failed conversions lists. *)
Definition bad_hours (j : nat) (lines : list (list string))
  : list (nat * string) :=
  omap (fun p : nat * list string =>
          match na_filter (p.2 !! j) with
          | Some s => match clean_hours (Some s) with
                      | Some _ => None
                      | None => Some (p.1, s)
                      end
          | None => None
          end)
       (imap pair lines).

(** A file whose header has no column of hours. *)
Definition headless_csv : raw_frame :=
  {| columns := ["Name"; "Role"; "Hours"];
     rows := [ ["Jane Doe"; "Cook"; "45"] ] |}.

Definition headless_world : world :=
  {| csv_files := {[ "pos.csv" := inr headless_csv ]};
     workbooks := ∅;
     save_fault := fun _ => None |}.

(** Some row from row 2 on has a value in column B: the sheet has a row
    below which a new employee can go. *)
Definition has_b_value (ws : worksheet) : Prop :=
  exists r, 2 <= r /\ truthy (value (get_cell ws "B" r)) = true.

(** The files after a save of [ws] to [output_path]. *)
Definition saved (w : world) (output_path : string) (ws : worksheet) : world :=
  {| csv_files := csv_files w;
     workbooks := <[output_path := inr ws]> (workbooks w);
     save_fault := save_fault w |}.

(** A world in which the folder of the output file is not there. *)
Definition no_folder_world : world :=
  {| csv_files := ∅;
     workbooks := {[ "template.xlsx" := inr small_template ]};
     save_fault := fun p => if String.eqb p "gone/out.xlsx"
                            then Some (file_not_found "gone/out.xlsx") else None |}.

(** The paths of the window pass the two checks of [run_processing]. *)
Definition selection_valid (env : os) (a : ExcelProcessorApp) : Prop :=
  csv_file_path a <> "No file selected"
  /\ path_exists env (csv_file_path a) = true
  /\ xlsx_file_path a <> "No file selected"
  /\ path_exists env (xlsx_file_path a) = true.

(** The folder of the downloads is there or can be made. *)
Definition downloads_ready (env : os) : Prop :=
  path_exists env (downloads_folder env) = true
  \/ makedirs_fault env (downloads_folder env) = None.

(** A desktop with the sample CSV file and the small template. *)
Definition desk : os :=
  {| home := "/home/me";
     path_exists := fun p => bool_decide (p ∈ ["/home/me/pos.csv"; "/home/me/payroll.xlsx"]);
     makedirs_fault := fun _ => None |}.


Definition desk_app : ExcelProcessorApp :=
  {| csv_file_path := "/home/me/pos.csv";
     xlsx_file_path := "/home/me/payroll.xlsx";
     selected_week := "Week 2";
     status_message := "";
     run_button := NORMAL;
     dialogs := [] |}.

(** The same desktop with a CSV file whose header lacks the hours. *)
Definition headless_desk_world : world :=
  {| csv_files := {[ "/home/me/pos.csv" := inr headless_csv ]};
     workbooks := {[ "/home/me/payroll.xlsx" := inr small_template ]};
     save_fault := fun _ => None |}.

(** * Properties *)

(** ** Characters *)

Ltac by_cases_on_char c :=
  destruct c as [[] [] [] [] [] [] [] []]; vm_compute; congruence.

Lemma lower_alnum_not_space c : Py.is_lower_alnum c = true -> Py.is_space c = false.
Proof. by_cases_on_char c. Qed.

Lemma lower_char_fixes_alnum c : Py.is_lower_alnum c = true -> Py.lower_char c = c.
Proof. by_cases_on_char c. Qed.

Lemma blank_char_cases c :
  Py.blank_char c = " "%char \/ Py.is_lower_alnum (Py.blank_char c) = true.
Proof.
  unfold Py.blank_char. destruct (Py.is_lower_alnum c) eqn:E; auto.
Qed.

Lemma blank_char_nonspace c :
  Py.is_space (Py.blank_char c) = false -> Py.is_lower_alnum (Py.blank_char c) = true.
Proof.
  destruct (blank_char_cases c) as [-> | H]; [discriminate | auto].
Qed.

(** ** [split] and [join] *)

Lemma rev_cons_not_nil {A} (a : A) l : rev (a :: l) <> [].
Proof. simpl. intros E. apply app_eq_nil in E. destruct E; discriminate. Qed.

Lemma split_from_words cur s :
  Forall (fun c => Py.is_lower_alnum c = true) cur ->
  Forall (fun c => Py.is_space c = false -> Py.is_lower_alnum c = true) s ->
  Forall word (Py.split_from cur s).
Proof.
  revert cur. induction s as [|c s IH]; intros cur Hcur Hs; simpl.
  - destruct cur as [|a cur2]; constructor; [|constructor].
    split; [apply rev_cons_not_nil | apply Forall_rev; exact Hcur].
  - inversion Hs as [|? ? Hc Hs2]; subst.
    destruct (Py.is_space c) eqn:E.
    + destruct cur as [|a cur2].
      * apply IH; auto.
      * constructor; [|apply IH; auto].
        split; [apply rev_cons_not_nil | apply Forall_rev; exact Hcur].
    + apply IH; auto.
Qed.

Lemma split_from_word w cur rest :
  Forall (fun c => Py.is_space c = false) w ->
  Py.split_from cur (w ++ rest) = Py.split_from (rev w ++ cur) rest.
Proof.
  revert cur. induction w as [|c w IH]; intros cur Hw; simpl; [reflexivity|].
  inversion Hw as [|? ? Hc Hw2]; subst. rewrite Hc, IH by assumption.
  rewrite <- app_assoc. reflexivity.
Qed.

Lemma word_nonspace w : word w -> Forall (fun c => Py.is_space c = false) w.
Proof.
  intros [_ H]. eapply Forall_impl; [exact H|]. apply lower_alnum_not_space.
Qed.

Lemma join_cons2 sep (w w2 : list ascii) ws :
  Py.join sep (w :: w2 :: ws) = (w ++ sep ++ Py.join sep (w2 :: ws))%list.
Proof. reflexivity. Qed.

(** Splitting a text made of words joined by single spaces gives back the
    words. *)
Lemma split_join ws :
  Forall word ws -> Py.split (Py.join [" "%char] ws) = ws.
Proof.
  unfold Py.split. induction ws as [|w ws IH]; intros H; [reflexivity|].
  inversion H as [|? ? Hw Hws]; subst.
  pose proof (word_nonspace w Hw) as Hns.
  assert (Hrev : exists a l, rev w = a :: l).
  { destruct (rev w) as [|a l] eqn:E; [|eauto].
    destruct Hw as [Hne _]. apply (f_equal (@rev _)) in E.
    rewrite rev_involutive in E. contradiction. }
  destruct Hrev as (a & l & E).
  destruct ws as [|w2 ws].
  - simpl. rewrite <- (app_nil_r w) at 1. rewrite split_from_word by assumption.
    simpl. rewrite app_nil_r, E, <- E, rev_involutive. reflexivity.
  - rewrite join_cons2, split_from_word by assumption. rewrite app_nil_r.
    change ([" "%char] ++ Py.join [" "%char] (w2 :: ws))%list
      with (" "%char :: Py.join [" "%char] (w2 :: ws)).
    cbn [Py.split_from]. change (Py.is_space " ") with true. cbv iota.
    rewrite E, <- E, rev_involutive. f_equal. apply IH. assumption.
Qed.

Lemma join_chars ws :
  Forall word ws -> Forall blank_or_alnum (Py.join [" "%char] ws).
Proof.
  induction ws as [|w ws IH]; intros H; [constructor|].
  inversion H as [|? ? [_ Hw] Hws]; subst.
  assert (Hw2 : Forall blank_or_alnum w).
  { eapply Forall_impl; [exact Hw|]. intros c Hc. right. exact Hc. }
  destruct ws as [|w2 ws]; [exact Hw2|].
  rewrite join_cons2. apply Forall_app. split; [exact Hw2|].
  constructor; [left; reflexivity | apply IH; assumption].
Qed.

(** The ends of a joined text are not whitespace, so [strip] leaves it. *)
Lemma lstrip_join ws :
  Forall word ws -> Py.lstrip (Py.join [" "%char] ws) = Py.join [" "%char] ws.
Proof.
  intros H. destruct ws as [|w ws]; [reflexivity|].
  inversion H as [|? ? Hw Hws]; subst.
  pose proof (word_nonspace w Hw) as Hns. destruct Hw as [Hne _].
  destruct w as [|c w]; [contradiction|].
  inversion Hns as [|? ? Hc _]; subst.
  destruct ws as [|w2 ws]; [simpl | rewrite join_cons2; simpl]; rewrite Hc; reflexivity.
Qed.

Lemma lstrip_length s : length (Py.lstrip s) <= length s.
Proof.
  induction s as [|a s IHs]; simpl; [lia|].
  destruct (Py.is_space a); simpl; lia.
Qed.

Lemma lstrip_rev_join ws :
  Forall word ws ->
  Py.lstrip (rev (Py.join [" "%char] ws)) = rev (Py.join [" "%char] ws).
Proof.
  induction ws as [|w ws IH]; intros H; [reflexivity|].
  inversion H as [|? ? Hw Hws]; subst.
  pose proof (word_nonspace w Hw) as Hns.
  destruct ws as [|w2 ws].
  - simpl. destruct Hw as [Hne _].
    destruct (rev w) as [|c l] eqn:E.
    + reflexivity.
    + simpl. assert (Hc : Py.is_space c = false).
      { apply Forall_rev in Hns. rewrite E in Hns. inversion Hns; auto. }
      rewrite Hc. reflexivity.
  - rewrite join_cons2, !rev_app_distr.
    specialize (IH Hws).
    destruct (rev (Py.join [" "%char] (w2 :: ws))) as [|c l] eqn:E.
    + exfalso. apply (f_equal (@rev _)) in E. rewrite rev_involutive in E.
      inversion Hws as [|? ? [Hne2 _] _]; subst.
      destruct w2; [contradiction|]. destruct ws; discriminate.
    + simpl in IH |- *. destruct (Py.is_space c); [|reflexivity].
      exfalso. apply (f_equal (@length _)) in IH.
      pose proof (lstrip_length l) as Hle. simpl in IH. lia.
Qed.

Lemma strip_join ws :
  Forall word ws -> Py.strip (Py.join [" "%char] ws) = Py.join [" "%char] ws.
Proof.
  intros H. unfold Py.strip, Py.rstrip.
  rewrite lstrip_join, lstrip_rev_join, rev_involutive by assumption.
  reflexivity.
Qed.

Lemma lower_join ws :
  Forall word ws -> Py.lower (Py.join [" "%char] ws) = Py.join [" "%char] ws.
Proof.
  intros H. pose proof (join_chars ws H) as Hc. unfold Py.lower.
  induction Hc as [|c l [-> | Hc] _ IH]; simpl; [reflexivity| |].
  - rewrite IH. reflexivity.
  - rewrite IH, lower_char_fixes_alnum by assumption. reflexivity.
Qed.

Lemma sub_join ws :
  Forall word ws ->
  Py.sub_non_alnum (Py.join [" "%char] ws) = Py.join [" "%char] ws.
Proof.
  intros H. pose proof (join_chars ws H) as Hc. unfold Py.sub_non_alnum.
  induction Hc as [|c l [-> | Hc] _ IH]; simpl; [reflexivity| |].
  - rewrite IH. reflexivity.
  - rewrite IH. unfold Py.blank_char. rewrite Hc. reflexivity.
Qed.

Lemma normalize_words s :
  Forall word (Py.split (Py.sub_non_alnum (Py.lower (Py.strip s)))).
Proof.
  apply split_from_words; [constructor|].
  unfold Py.sub_non_alnum. apply Forall_map.
  apply Forall_forall. intros c _. apply blank_char_nonspace.
Qed.

Lemma normalize_chars_idempotent s :
  normalize_chars (normalize_chars s) = normalize_chars s.
Proof.
  unfold normalize_chars at 1 3.
  pose proof (normalize_words s) as H.
  set (ws := Py.split _) in *.
  unfold normalize_chars.
  rewrite strip_join, lower_join, sub_join, split_join by assumption.
  reflexivity.
Qed.

Lemma is_space_lower_char c : Py.is_space (Py.lower_char c) = Py.is_space c.
Proof. by_cases_on_char c. Qed.

Lemma lower_char_idempotent c : Py.lower_char (Py.lower_char c) = Py.lower_char c.
Proof. by_cases_on_char c. Qed.

Lemma lstrip_lower s : Py.lstrip (Py.lower s) = Py.lower (Py.lstrip s).
Proof.
  induction s as [|c s IH]; simpl; [reflexivity|].
  rewrite is_space_lower_char. destruct (Py.is_space c); [exact IH | reflexivity].
Qed.

Lemma strip_lower s : Py.strip (Py.lower s) = Py.lower (Py.strip s).
Proof.
  unfold Py.strip, Py.rstrip. rewrite lstrip_lower.
  unfold Py.lower at 1. rewrite <- map_rev. fold (Py.lower (rev (Py.lstrip s))).
  rewrite lstrip_lower. unfold Py.lower. rewrite map_rev. reflexivity.
Qed.

Lemma normalize_lower x : normalize (str_lower x) = normalize x.
Proof.
  unfold normalize, str_lower, normalize_chars.
  rewrite list_ascii_of_string_of_list_ascii, strip_lower.
  unfold Py.lower. rewrite (map_map Py.lower_char Py.lower_char).
  erewrite map_ext; [reflexivity|]. intros c. apply lower_char_idempotent.
Qed.

(** C9. [normalize] is a function of its argument and idempotent, and it
    is blind to case and to the amount of white space: a text and its
    lower-case form normalize alike, and so do the two texts of the
    example. *)
Theorem normalize_idempotent (x : string) :
  normalize (normalize x) = normalize x
  /\ normalize (str_lower x) = normalize x
  /\ normalize "  H-R   Host " = normalize "h r host"
  /\ normalize "  H-R   Host " = "h r host".
Proof.
  split; [|split; [apply normalize_lower|split; reflexivity]].
  unfold normalize. rewrite list_ascii_of_string_of_list_ascii.
  rewrite normalize_chars_idempotent. reflexivity.
Qed.

Example normalize_placeholders :
  normalize "H-R Host" = "h r host" /\ normalize "Online" = "online"
  /\ normalize "S-COMMON Server" = "s common server"
  /\ normalize "S-Johnny Server" = "s johnny server".
Proof. repeat split. Qed.

(** Specification vocabulary for the loader. *)

(** ** The loader *)

Lemma scan_cutoff_spec width idx rs :
  2 <= width ->
  scan_cutoff width idx rs
  = Return ((fun p => (idx + p.1)%nat) <$> list_find is_role_line rs).
Proof.
  intros Hw. revert idx. induction rs as [|row rest IH]; intros idx; [reflexivity|].
  cbn [scan_cutoff list_find]. unfold iloc.
  destruct (Nat.ltb_spec 1 width) as [_|Hlt]; [|lia].
  unfold is_role_line at 1. destruct (decide (row !! 1%nat = Some "Role")) as [E|E].
  - rewrite bool_decide_eq_true_2 by exact E. simpl. do 3 f_equal. lia.
  - rewrite bool_decide_eq_false_2 by exact E. rewrite IH.
    destruct (list_find is_role_line rest) as [[k x]|]; simpl; [|reflexivity].
    do 3 f_equal. lia.
Qed.

Lemma index_of_lookup name names i :
  index_of name names = Some i -> names !! i = Some name.
Proof.
  revert i. induction names as [|n rest IH]; intros i; simpl; [discriminate|].
  destruct (decide (n = name)) as [->|Hne].
  - rewrite bool_decide_eq_true_2 by reflexivity. intros [= <-]. reflexivity.
  - rewrite bool_decide_eq_false_2 by exact Hne.
    destruct (index_of name rest) as [k|]; simpl; [|discriminate].
    intros [= <-]. simpl. apply IH. reflexivity.
Qed.

(** A header with the two columns has at least two columns. *)
Lemma two_columns names i j :
  index_of "Name" names = Some i -> index_of "Work Hours" names = Some j ->
  2 <= length names.
Proof.
  intros Hi Hj. apply index_of_lookup in Hi, Hj.
  assert (i <> j) by (intros ->; congruence).
  apply lookup_lt_Some in Hi, Hj. lia.
Qed.

Lemma read_pos_csv_readable csv_path m full i j :
  csv_files (files m) !! csv_path = Some (inr full) ->
  index_of "Name" (columns full) = Some i ->
  index_of "Work Hours" (columns full) = Some j ->
  read_pos_csv csv_path m
  = (Return (Some (dropna (convert_hours (select_columns i j (usable_rows full))))),
     {| files := files m; log := log m ++ loader_log csv_path full i j |}).
Proof.
  intros Hf Hi Hj.
  pose proof (two_columns _ _ _ Hi Hj) as Hw.
  unfold read_pos_csv, try_except, read_pos_csv_body, loader_log, usable_rows, cutoff_row.
  unfold mbind, M_bind, pd_read_csv_usecols, mbind, M_bind, pd_read_csv, lift.
  rewrite Hf. rewrite (scan_cutoff_spec _ _ _ Hw).
  destruct m as [w lg]. simpl in Hf |- *.
  destruct (list_find is_role_line (rows full)) as [[k line]|] eqn:Hfind; simpl.
  - rewrite Hf, Hi, Hj. simpl.
    destruct (List.filter _ (select_columns i j (take k (rows full)))); simpl;
      rewrite <- ?app_assoc; reflexivity.
  - rewrite Hf, Hi, Hj. simpl. rewrite firstn_all.
    destruct (List.filter _ (select_columns i j (rows full))); simpl;
      rewrite <- ?app_assoc; reflexivity.
Qed.

Lemma usable_rows_lookup full n line :
  usable_rows full !! n = Some line ->
  rows full !! n = Some line.
Proof.
  unfold usable_rows. destruct (cutoff_row full) as [k|]; [|auto].
  intros H. apply lookup_take_Some in H. tauto.
Qed.

Lemma usable_rows_found full k line :
  rows full !! k = Some line -> line !! 1%nat = Some "Role" ->
  (forall n l, n < k -> rows full !! n = Some l -> l !! 1%nat <> Some "Role") ->
  cutoff_row full = Some k.
Proof.
  intros Hk Hrole Hfirst. unfold cutoff_row.
  assert (E : list_find is_role_line (rows full) = Some (k, line)).
  { apply list_find_Some. split; [exact Hk|]. split; [exact Hrole|].
    intros n l Hn Hlt. apply (Hfirst n l Hlt Hn). }
  rewrite E. reflexivity.
Qed.

Lemma usable_rows_not_found full :
  (forall n l, rows full !! n = Some l -> l !! 1%nat <> Some "Role") ->
  cutoff_row full = None.
Proof.
  intros Hnone. unfold cutoff_row.
  assert (E : list_find is_role_line (rows full) = None).
  { apply list_find_None. apply Forall_forall. intros l Hl.
    apply list_elem_of_lookup in Hl. destruct Hl as [n Hn]. apply (Hnone n l Hn). }
  rewrite E. reflexivity.
Qed.

(** C4. [read_pos_csv] takes the data lines in file order up to the first
    one whose second field is the text [Role]: with that line at index
    [k], exactly the [k] lines before it are taken; without such a line,
    all lines are taken and the warning is logged. *)
Theorem cutoff_detection csv_path m full i j
    (Hfile : csv_files (files m) !! csv_path = Some (inr full))
    (Hname : index_of "Name" (columns full) = Some i)
    (Hhours : index_of "Work Hours" (columns full) = Some j) :
  exists lg,
    read_pos_csv csv_path m
    = (Return (Some (dropna (convert_hours
                       (select_columns i j (usable_rows full))))),
       {| files := files m; log := log m ++ lg |})
    /\ (forall k line,
          rows full !! k = Some line -> line !! 1%nat = Some "Role" ->
          (forall n l, n < k -> rows full !! n = Some l ->
                       l !! 1%nat <> Some "Role") ->
          usable_rows full = take k (rows full)
          /\ length (usable_rows full) = k
          /\ (WARNING, CutoffNotFound csv_path) ∉ lg)
    /\ ((forall n l, rows full !! n = Some l -> l !! 1%nat <> Some "Role") ->
        usable_rows full = rows full
        /\ (WARNING, CutoffNotFound csv_path) ∈ lg).
Proof.
  exists (loader_log csv_path full i j).
  split; [apply read_pos_csv_readable; assumption|].
  split.
  - intros k line Hk Hrole Hfirst.
    pose proof (usable_rows_found full k line Hk Hrole Hfirst) as E.
    unfold usable_rows, loader_log. rewrite E.
    split; [reflexivity|]. split.
    + rewrite length_take. apply lookup_lt_Some in Hk. lia.
    + simpl. intros Hin. apply elem_of_app in Hin. destruct Hin as [Hin|Hin].
      * destruct (List.filter _ _); [inversion Hin|].
        apply list_elem_of_singleton in Hin. discriminate.
      * apply list_elem_of_singleton in Hin. discriminate.
  - intros Hnone. pose proof (usable_rows_not_found full Hnone) as E.
    unfold usable_rows, loader_log. rewrite E.
    split; [reflexivity|]. apply elem_of_app. left. apply list_elem_of_singleton. reflexivity.
Qed.

Lemma cutoff_detection_witness :
  exists lg,
    read_pos_csv "pos.csv" {| files := sample_world; log := [] |}
    = (Return (Some (dropna (convert_hours
                       (select_columns 0 2 (usable_rows sample_csv))))),
       {| files := sample_world; log := [] ++ lg |})
    /\ (forall k line,
          rows sample_csv !! k = Some line -> line !! 1%nat = Some "Role" ->
          (forall n l, n < k -> rows sample_csv !! n = Some l ->
                       l !! 1%nat <> Some "Role") ->
          usable_rows sample_csv = take k (rows sample_csv)
          /\ length (usable_rows sample_csv) = k
          /\ (WARNING, CutoffNotFound "pos.csv") ∉ lg)
    /\ ((forall n l, rows sample_csv !! n = Some l -> l !! 1%nat <> Some "Role") ->
        usable_rows sample_csv = rows sample_csv
        /\ (WARNING, CutoffNotFound "pos.csv") ∈ lg).
Proof.
  apply (cutoff_detection "pos.csv" {| files := sample_world; log := [] |}
           sample_csv 0 2); reflexivity.
Defined.

Example cutoff_sample :
  fst (read_pos_csv "pos.csv" {| files := sample_world; log := [] |})
  = Return (Some [ {| index := 0; Name := Some "Jane Doe"; Work_Hours := Some 45%Q |};
                   {| index := 1; Name := Some "Online"; Work_Hours := Some 10%Q |} ]).
Proof. vm_compute. reflexivity. Qed.

(** ** Cleaning the hours *)






(** ** The worksheet *)

Lemma get_cell_S ws col i :
  get_cell ws col (S i) = default empty_cell (default ∅ (ws !! i) !! col).
Proof.
  unfold get_cell. destruct (ws !! i) as [row|]; simpl; [reflexivity|].
  rewrite lookup_empty. reflexivity.
Qed.

Lemma get_cell_beyond ws col r : length ws < r -> get_cell ws col r = empty_cell.
Proof.
  intros H. destruct r as [|i]; [reflexivity|].
  unfold get_cell. rewrite lookup_ge_None_2 by lia. reflexivity.
Qed.

Lemma lookup_padded (ws : worksheet) n i :
  default ∅ ((ws ++ replicate n ∅) !! i) = default ∅ (ws !! i).
Proof.
  destruct (decide (i < length ws)) as [Hlt|Hge].
  - rewrite lookup_app_l by exact Hlt. reflexivity.
  - rewrite lookup_app_r by lia. rewrite (lookup_ge_None_2 ws i) by lia.
    destruct (replicate n ∅ !! (i - length ws)) as [x|] eqn:E; [|reflexivity].
    apply lookup_replicate in E. destruct E as [-> _]. reflexivity.
Qed.

Lemma get_alter_cell_eq f col i ws :
  get_cell (alter_cell f col (S i) ws) col (S i) = f (get_cell ws col (S i)).
Proof.
  rewrite !get_cell_S. unfold alter_cell.
  rewrite list_lookup_alter_eq.
  assert (Hlt : i < length (ws ++ replicate (S i - length ws) (∅ : gmap string cell))).
  { rewrite length_app, length_replicate. lia. }
  destruct (lookup_lt_is_Some_2 _ _ Hlt) as [row Hrow].
  pose proof (lookup_padded ws (S i - length ws) i) as Hpad.
  rewrite Hrow in Hpad |- *. simpl in Hpad |- *. subst row.
  rewrite lookup_insert_eq. reflexivity.
Qed.

Lemma get_alter_cell_ne f col r ws col2 r2 :
  r <> r2 \/ col <> col2 ->
  get_cell (alter_cell f col r ws) col2 r2 = get_cell ws col2 r2.
Proof.
  intros Hne. destruct r as [|i]; [reflexivity|].
  destruct r2 as [|i2]; [reflexivity|].
  rewrite !get_cell_S. unfold alter_cell.
  destruct (decide (i = i2)) as [<-|Hi].
  - rewrite list_lookup_alter_eq.
    assert (Hlt : i < length (ws ++ replicate (S i - length ws) (∅ : gmap string cell))).
    { rewrite length_app, length_replicate. lia. }
    destruct (lookup_lt_is_Some_2 _ _ Hlt) as [row Hrow].
    pose proof (lookup_padded ws (S i - length ws) i) as Hpad.
    rewrite Hrow in Hpad |- *. simpl in Hpad |- *. subst row.
    rewrite lookup_insert_ne; [reflexivity|]. destruct Hne; congruence.
  - rewrite list_lookup_alter_ne by exact Hi. apply f_equal.
    rewrite lookup_padded. reflexivity.
Qed.

Lemma get_set_value_eq col r v ws :
  r <> 0%nat ->
  get_cell (set_value col r v ws) col r = Cell v (fill (get_cell ws col r)).
Proof.
  intros H. destruct r as [|i]; [contradiction|]. apply get_alter_cell_eq.
Qed.

Lemma get_set_value_ne col r v ws col2 r2 :
  r <> r2 \/ col <> col2 ->
  get_cell (set_value col r v ws) col2 r2 = get_cell ws col2 r2.
Proof. apply get_alter_cell_ne. Qed.

Lemma get_set_fill_eq col r f ws :
  r <> 0%nat ->
  get_cell (set_fill col r f ws) col r = Cell (value (get_cell ws col r)) (Some f).
Proof.
  intros H. destruct r as [|i]; [contradiction|]. apply get_alter_cell_eq.
Qed.

Lemma get_set_fill_ne col r f ws col2 r2 :
  r <> r2 \/ col <> col2 ->
  get_cell (set_fill col r f ws) col2 r2 = get_cell ws col2 r2.
Proof. apply get_alter_cell_ne. Qed.

(** The three zones of a sheet after [insert_rows idx]. *)
Lemma get_insert_rows_above idx ws col r :
  r < idx -> get_cell (insert_rows idx ws) col r = get_cell ws col r.
Proof.
  intros Hr. unfold insert_rows.
  destruct (Nat.leb 1 idx && Nat.leb idx (length ws)) eqn:E; [|reflexivity].
  apply andb_true_iff in E. destruct E as [E1 E2].
  apply Nat.leb_le in E1, E2.
  destruct r as [|i]; [reflexivity|]. rewrite !get_cell_S.
  rewrite lookup_app_l by (rewrite length_take; lia).
  rewrite lookup_take_lt by lia. reflexivity.
Qed.


Lemma get_insert_rows_below idx ws col r :
  1 <= idx -> idx < r ->
  get_cell (insert_rows idx ws) col r = get_cell ws col (r - 1).
Proof.
  intros Hidx Hr. unfold insert_rows.
  destruct (Nat.leb 1 idx && Nat.leb idx (length ws)) eqn:E.
  - apply andb_true_iff in E. destruct E as [E1 E2].
    apply Nat.leb_le in E1, E2.
    destruct r as [|i]; [lia|]. destruct i as [|i]; [lia|].
    replace (S (S i) - 1)%nat with (S i) by lia. rewrite !get_cell_S.
    rewrite lookup_app_r by (rewrite length_take; lia).
    rewrite length_take.
    replace (S i - (idx - 1) `min` length ws)%nat with (S (i - (idx - 1)))%nat by lia.
    simpl. rewrite lookup_drop. replace (idx - 1 + (i - (idx - 1)))%nat with i by lia.
    reflexivity.
  - apply andb_false_iff in E.
    assert (Hlen : length ws < idx).
    { destruct E as [E|E]; apply Nat.leb_gt in E; lia. }
    rewrite !get_cell_beyond by lia. reflexivity.
Qed.

(** ** The scan of column B *)

Lemma elem_of_b_rows ws r :
  In r (b_rows ws) <-> 2 <= r /\ truthy (value (get_cell ws "B" r)) = true.
Proof.
  unfold b_rows, py_range, max_row. rewrite filter_In, in_seq. split.
  - intros [[H2 _] Ht]. auto.
  - intros [H2 Ht]. split; [|exact Ht]. split; [exact H2|].
    destruct (decide (r <= length ws)) as [Hle|Hgt]; [lia|].
    rewrite get_cell_beyond in Ht by lia. discriminate.
Qed.

Lemma foldl_max_spec l x :
  let m := foldl Nat.max x l in
  (m = x \/ In m l) /\ x <= m /\ forall y, In y l -> y <= m.
Proof.
  revert x. induction l as [|a l IH]; intros x; simpl.
  - split; [left; reflexivity|]. split; [lia|]. intros y [].
  - destruct (IH (Nat.max x a)) as (Hin & Hle & Hall).
    split; [|split].
    + destruct Hin as [E|Hin]; [|right; right; exact Hin].
      destruct (Nat.max_spec x a) as [[_ Emax]|[_ Emax]]; rewrite Emax in *.
      * right. left. symmetry. exact E.
      * left. exact E.
    + lia.
    + intros y [<-|Hy]; [lia|]. apply Hall. exact Hy.
Qed.

Lemma py_max_b_rows ws k :
  py_max_seq (b_rows ws) = Return k <-> last_b_row ws k.
Proof.
  unfold py_max_seq, last_b_row. split.
  - destruct (b_rows ws) as [|x l] eqn:E; [discriminate|].
    intros [= <-]. destruct (foldl_max_spec l x) as (Hin & Hle & Hall).
    assert (Hmem : In (foldl Nat.max x l) (b_rows ws)).
    { rewrite E. destruct Hin as [->|Hin]; [left; reflexivity|right; exact Hin]. }
    apply elem_of_b_rows in Hmem. destruct Hmem as [H2 Ht].
    split; [exact H2|]. split; [exact Ht|].
    intros r Hr. destruct (truthy (value (get_cell ws "B" r))) eqn:Etr; [|reflexivity].
    assert (Hrin : In r (b_rows ws)) by (apply elem_of_b_rows; split; [lia|exact Etr]).
    rewrite E in Hrin. destruct Hrin as [<-|Hrin]; [lia|].
    apply Hall in Hrin. lia.
  - intros (H2 & Ht & Hlast).
    assert (Hk : In k (b_rows ws)) by (apply elem_of_b_rows; auto).
    destruct (b_rows ws) as [|x l] eqn:E; [destruct Hk|].
    f_equal. destruct (foldl_max_spec l x) as (Hin & Hle & Hall).
    assert (Hmem : In (foldl Nat.max x l) (b_rows ws)).
    { rewrite E. destruct Hin as [->|Hin]; [left; reflexivity|right; exact Hin]. }
    apply elem_of_b_rows in Hmem. destruct Hmem as [_ Htm].
    assert (k <= foldl Nat.max x l).
    { destruct Hk as [<-|Hk]; [exact Hle | apply Hall; exact Hk]. }
    destruct (decide (k < foldl Nat.max x l)) as [Hlt|Hge]; [|lia].
    rewrite (Hlast _ Hlt) in Htm. discriminate.
Qed.

Lemma last_b_row_unique ws k1 k2 : last_b_row ws k1 -> last_b_row ws k2 -> k1 = k2.
Proof.
  intros (_ & Ht1 & Hl1) (_ & Ht2 & Hl2).
  destruct (lt_eq_lt_dec k1 k2) as [[Hlt|Heq]|Hgt]; [|exact Heq|].
  - rewrite (Hl1 _ Hlt) in Ht2. discriminate.
  - rewrite (Hl2 _ Hgt) in Ht1. discriminate.
Qed.

(** The predicate only reads column [B]. *)
Lemma last_b_row_ext ws1 ws2 k :
  (forall r, get_cell ws2 "B" r = get_cell ws1 "B" r) ->
  last_b_row ws1 k -> last_b_row ws2 k.
Proof.
  intros Hext (H2 & Ht & Hl). split; [exact H2|]. split.
  - rewrite Hext. exact Ht.
  - intros r Hr. rewrite Hext. apply Hl. exact Hr.
Qed.

Lemma b_rows_nil ws :
  b_rows ws = [] <->
  forall r, 2 <= r <= max_row ws -> truthy (value (get_cell ws "B" r)) = false.
Proof.
  split.
  - intros E r Hr. destruct (truthy (value (get_cell ws "B" r))) eqn:Et; [|reflexivity].
    assert (Hin : In r (b_rows ws)) by (apply elem_of_b_rows; split; [lia|exact Et]).
    rewrite E in Hin. destruct Hin.
  - intros Hall. destruct (b_rows ws) as [|x l] eqn:E; [reflexivity|].
    assert (Hin : In x (b_rows ws)) by (rewrite E; left; reflexivity).
    pose proof Hin as Hin2. apply elem_of_b_rows in Hin2. destruct Hin2 as [H2 Ht].
    unfold b_rows, py_range in Hin. apply filter_In in Hin. destruct Hin as [Hin _].
    apply in_seq in Hin. rewrite Hall in Ht by lia. discriminate.
Qed.

(** ** The loop *)

Lemma merge_row_step reg_col ot_col name_to_row st row m :
  exists res,
    row_step reg_col ot_col name_to_row st row res
    /\ merge_row reg_col ot_col name_to_row st row m = after_step m res.
Proof.
  unfold merge_row. fold (raw_name_of row). fold (key_of row).
  destruct (blank (raw_name_of row)) eqn:Eb.
  { eexists. split; [apply step_invalid; left; exact Eb|].
    destruct (Work_Hours row); reflexivity. }
  destruct (Work_Hours row) as [h|] eqn:Eh.
  2:{ eexists. split; [apply step_invalid; right; exact Eh|]. rewrite Eh. reflexivity. }
  assert (Hv : valid_row row h) by (split; assumption).
  destruct (decide (key_of row ∈ ignore_names_set)) as [Hi|Hi].
  { rewrite bool_decide_eq_true_2 by exact Hi.
    eexists. split; [eapply step_ignored; eassumption|]. reflexivity. }
  rewrite bool_decide_eq_false_2 by exact Hi.
  destruct (decide (key_of row ∈ processed st)) as [Hp|Hp].
  { rewrite bool_decide_eq_true_2 by exact Hp.
    eexists. split; [eapply step_duplicate; eassumption|]. reflexivity. }
  rewrite bool_decide_eq_false_2 by exact Hp.
  destruct (name_to_row !! key_of row) as [[|t]|] eqn:En.
  - destruct (py_max_seq (b_rows (sheet st))) as [k|e] eqn:Emax.
    + eexists. split; [eapply step_insert; eauto|]. reflexivity.
    + unfold py_max_seq in Emax. destruct (b_rows (sheet st)) eqn:Eb2; [|discriminate].
      injection Emax as <-.
      eexists. split; [eapply step_no_anchor; eauto|]. reflexivity.
  - eexists. split; [eapply step_update; eauto|]. reflexivity.
  - destruct (py_max_seq (b_rows (sheet st))) as [k|e] eqn:Emax.
    + eexists. split; [eapply step_insert; eauto|]. reflexivity.
    + unfold py_max_seq in Emax. destruct (b_rows (sheet st)) eqn:Eb2; [|discriminate].
      injection Emax as <-.
      eexists. split; [eapply step_no_anchor; eauto|]. reflexivity.
Qed.

Lemma merge_rows_run reg_col ot_col name_to_row st data m :
  exists entries o,
    rows_run reg_col ot_col name_to_row st data entries o
    /\ merge_rows reg_col ot_col name_to_row st data m = (o, add_logs m entries).
Proof.
  revert st m. induction data as [|row rest IH]; intros st m.
  - exists [], (Return st). split; [constructor|].
    unfold add_logs. rewrite app_nil_r. destruct m; reflexivity.
  - destruct (merge_row_step reg_col ot_col name_to_row st row m) as (res & Hstep & Hrow).
    cbn [merge_rows]. unfold mbind, M_bind. rewrite Hrow.
    destruct res as [[st1 c]|e]; simpl.
    + destruct (IH st1 (add_log m c)) as (entries & o & Hrun & Hrows).
      exists (c :: entries), o. split; [econstructor; eassumption|].
      rewrite Hrows. unfold add_logs, add_log. simpl. rewrite <- app_assoc. reflexivity.
    + exists [], (Raise e). split; [constructor; exact Hstep|].
      unfold add_logs. rewrite app_nil_r. destruct m; reflexivity.
Qed.

(** ** The week columns *)

Lemma week_columns_cases week reg_col ot_col :
  week_columns week = Some (reg_col, ot_col) ->
  (week = "Week 1" /\ reg_col = "S" /\ ot_col = "T")
  \/ (week = "Week 2" /\ reg_col = "V" /\ ot_col = "W").
Proof.
  unfold week_columns.
  destruct (String.eqb_spec week "Week 1") as [->|_].
  - intros [= <- <-]. left. auto.
  - destruct (String.eqb_spec week "Week 2") as [->|_]; [|discriminate].
    intros [= <- <-]. right. auto.
Qed.

Lemma week_columns_distinct week reg_col ot_col :
  week_columns week = Some (reg_col, ot_col) ->
  reg_col <> ot_col /\ reg_col <> "B" /\ ot_col <> "B".
Proof.
  intros H. apply week_columns_cases in H.
  destruct H as [(_ & -> & ->)|(_ & -> & ->)]; repeat split; discriminate.
Qed.

Lemma week_columns_none week :
  week <> "Week 1" -> week <> "Week 2" -> week_columns week = None.
Proof.
  intros H1 H2. unfold week_columns.
  destruct (String.eqb_spec week "Week 1"); [contradiction|].
  destruct (String.eqb_spec week "Week 2"); [contradiction|]. reflexivity.
Qed.

(** ** The cells after the writes *)

Section Writes.

Variables (reg_col ot_col : string).
Hypothesis reg_ot : reg_col <> ot_col.

Lemma write_hours_reg r hours ws :
  r <> 0%nat ->
  get_cell (write_hours reg_col ot_col r hours ws) reg_col r
  = Cell (VNum (reg_hours hours)) (fill (get_cell ws reg_col r)).
Proof.
  intros Hr. unfold write_hours.
  rewrite get_set_value_ne by (right; congruence).
  apply get_set_value_eq. exact Hr.
Qed.

Lemma write_hours_ot r hours ws :
  r <> 0%nat ->
  get_cell (write_hours reg_col ot_col r hours ws) ot_col r
  = Cell (or_blank (ot_hours hours)) (fill (get_cell ws ot_col r)).
Proof.
  intros Hr. unfold write_hours.
  rewrite get_set_value_eq by exact Hr.
  rewrite get_set_value_ne by (right; exact reg_ot). reflexivity.
Qed.

Lemma write_hours_other r hours ws col r2 :
  r2 <> r \/ (col <> reg_col /\ col <> ot_col) ->
  get_cell (write_hours reg_col ot_col r hours ws) col r2 = get_cell ws col r2.
Proof.
  intros H. unfold write_hours.
  rewrite !get_set_value_ne; [reflexivity| |];
    destruct H as [H|[H1 H2]]; auto.
Qed.

Hypothesis reg_B : reg_col <> "B".
Hypothesis ot_B : ot_col <> "B".

Lemma insert_employee_B ins raw hours ws :
  ins <> 0%nat ->
  get_cell (insert_employee reg_col ot_col ins raw hours ws) "B" ins
  = Cell (VStr raw) (Some red_fill).
Proof.
  intros Hins. unfold insert_employee.
  rewrite write_hours_other by (right; split; congruence).
  rewrite get_set_fill_eq, get_set_value_eq by exact Hins. reflexivity.
Qed.



Lemma insert_employee_above ins raw hours ws col r :
  r < ins ->
  get_cell (insert_employee reg_col ot_col ins raw hours ws) col r
  = get_cell ws col r.
Proof.
  intros Hr. unfold insert_employee.
  rewrite write_hours_other by (left; lia).
  rewrite get_set_fill_ne, get_set_value_ne by (left; lia).
  apply get_insert_rows_above. exact Hr.
Qed.

Lemma insert_employee_below ins raw hours ws col r :
  1 <= ins -> ins < r ->
  get_cell (insert_employee reg_col ot_col ins raw hours ws) col r
  = get_cell ws col (r - 1).
Proof.
  intros Hins Hr. unfold insert_employee.
  rewrite write_hours_other by (left; lia).
  rewrite get_set_fill_ne, get_set_value_ne by (left; lia).
  apply get_insert_rows_below; assumption.
Qed.

End Writes.

(** ** The name lookup *)

Section Lookup.

Variable num_str : Q -> string.

(** A row recorded under a key is a row of the loaded sheet, from row 2
    on, whose column-[C] cell has a true value that normalises to the key. *)
Lemma build_name_to_row_lookup ws key r :
  build_name_to_row num_str ws !! key = Some r ->
  2 <= r <= max_row ws
  /\ truthy (value (get_cell ws "C" r)) = true
  /\ normalize (py_str num_str (value (get_cell ws "C" r))) = key.
Proof.
  unfold build_name_to_row.
  set (f := fun (m : gmap string nat) row => _).
  set (P := fun k r => 2 <= r <= max_row ws
                       /\ truthy (value (get_cell ws "C" r)) = true
                       /\ normalize (py_str num_str (value (get_cell ws "C" r))) = k).
  assert (Hgen : forall l m,
             (forall x, In x l -> 2 <= x <= max_row ws) ->
             (forall k x, m !! k = Some x -> P k x) ->
             forall k x, foldl f m l !! k = Some x -> P k x).
  { induction l as [|a l IH]; intros m Hl Hm k x; simpl; [apply Hm|].
    apply IH; [intros y Hy; apply Hl; right; exact Hy|].
    intros k2 x2. unfold f.
    destruct (truthy (value (get_cell ws "C" a))) eqn:Et; [|apply Hm].
    destruct (decide (normalize (py_str num_str (value (get_cell ws "C" a))) = k2)) as [<-|Hne].
    - rewrite lookup_insert_eq. intros [= <-].
      split; [apply Hl; left; reflexivity|]. split; [exact Et|reflexivity].
    - rewrite lookup_insert_ne by exact Hne. apply Hm. }
  apply Hgen.
  - intros x Hx. unfold py_range in Hx. apply in_seq in Hx. lia.
  - intros k x Hk. rewrite lookup_empty in Hk. discriminate.
Qed.

End Lookup.

(** ** A matched record *)

Lemma blank_false_not_empty raw : blank raw = false -> raw <> "".
Proof. intros H ->. discriminate. Qed.

Lemma merge_row_update reg_col ot_col name_to_row st row m hours target :
  valid_row row hours ->
  key_of row ∉ ignore_names_set ->
  key_of row ∉ processed st ->
  name_to_row !! key_of row = Some target ->
  target <> 0%nat ->
  merge_row reg_col ot_col name_to_row st row m
  = (Return {| sheet := write_hours reg_col ot_col target hours (sheet st);
               processed := processed st ∪ {[ key_of row ]} |},
     add_log m (DEBUG, Updated (raw_name_of row) target)).
Proof.
  intros [Hb Hh] Hi Hp Hn Ht. unfold merge_row.
  fold (raw_name_of row). fold (key_of row).
  rewrite Hb, Hh, Hn.
  rewrite bool_decide_eq_false_2 by exact Hi.
  rewrite bool_decide_eq_false_2 by exact Hp.
  destruct target as [|t]; [contradiction|]. reflexivity.
Qed.


Lemma merge_row_no_anchor reg_col ot_col name_to_row st row m hours :
  valid_row row hours ->
  key_of row ∉ ignore_names_set ->
  key_of row ∉ processed st ->
  name_to_row !! key_of row = None ->
  b_rows (sheet st) = [] ->
  merge_row reg_col ot_col name_to_row st row m
  = (Raise (Exn ValueError "max() arg is an empty sequence"), m).
Proof.
  intros [Hb Hh] Hi Hp Hn Hnil. unfold merge_row.
  fold (raw_name_of row). fold (key_of row).
  rewrite Hb, Hh, Hn.
  rewrite bool_decide_eq_false_2 by exact Hi.
  rewrite bool_decide_eq_false_2 by exact Hp.
  unfold mbind, M_bind, lift. rewrite Hnil. reflexivity.
Qed.



(** ** Unmatched records *)

Lemma truthy_raw_name row hours :
  valid_row row hours -> truthy (VStr (raw_name_of row)) = true.
Proof.
  intros [Hb _]. simpl. apply blank_false_not_empty in Hb.
  destruct (String.eqb_spec (raw_name_of row) ""); [contradiction|reflexivity].
Qed.

(** After an insertion below the last B row, the inserted row is the last
    B row. *)
Lemma last_b_row_after_insert reg_col ot_col raw hours ws k :
  reg_col <> ot_col -> reg_col <> "B" -> ot_col <> "B" ->
  truthy (VStr raw) = true ->
  last_b_row ws k ->
  last_b_row (insert_employee reg_col ot_col (k + 1) raw hours ws) (k + 1).
Proof.
  intros Hne HrB HoB Hraw (H2 & Ht & Hlast). split; [lia|]. split.
  - rewrite insert_employee_B by (assumption || lia). exact Hraw.
  - intros r Hr. rewrite insert_employee_below by (assumption || lia).
    apply Hlast. lia.
Qed.

(** How a step changes column B. *)
Lemma row_step_column_B reg_col ot_col name_to_row st row st1 c :
  reg_col <> ot_col -> reg_col <> "B" -> ot_col <> "B" ->
  row_step reg_col ot_col name_to_row st row (Return (st1, c)) ->
  (added_rows [c] = []
   /\ forall r, get_cell (sheet st1) "B" r = get_cell (sheet st) "B" r)
  \/ (exists k,
        added_rows [c] = [(raw_name_of row, k + 1)%nat]
        /\ last_b_row (sheet st) k
        /\ last_b_row (sheet st1) (k + 1)
        /\ get_cell (sheet st1) "B" (k + 1) = Cell (VStr (raw_name_of row)) (Some red_fill)
        /\ forall r, r < k + 1 -> get_cell (sheet st1) "B" r = get_cell (sheet st) "B" r).
Proof.
  intros Hne HrB HoB Hstep. inversion Hstep; subst; try (left; split; [reflexivity|reflexivity]).
  - left. split; [reflexivity|]. intros r. simpl.
    apply write_hours_other. right. split; congruence.
  - right. exists last_b. simpl.
    match goal with H : py_max_seq _ = Return _ |- _ => apply py_max_b_rows in H; rename H into Hlast end.
    split; [reflexivity|]. split; [exact Hlast|]. split; [|split].
    + apply last_b_row_after_insert; try assumption.
      eapply truthy_raw_name; eassumption.
    + apply insert_employee_B; (assumption || lia).
    + intros r Hr. apply insert_employee_above; assumption.
Qed.

Lemma added_rows_cons c entries :
  added_rows (c :: entries) = added_rows [c] ++ added_rows entries.
Proof.
  unfold added_rows. simpl. destruct (c.2); reflexivity.
Qed.

(** The rows added by a run that ends normally: each lands right below
    the one before, the first right below the last B row of the sheet the
    run starts from, and all of them still hold their names at the end. *)
Lemma run_added_rows reg_col ot_col name_to_row st data entries o :
  reg_col <> ot_col -> reg_col <> "B" -> ot_col <> "B" ->
  rows_run reg_col ot_col name_to_row st data entries o ->
  forall st', o = Return st' ->
    match added_rows entries with
    | [] => forall r, get_cell (sheet st') "B" r = get_cell (sheet st) "B" r
    | (_, i) :: _ =>
        1 <= i /\ last_b_row (sheet st) (i - 1)
        /\ forall r, r < i -> get_cell (sheet st') "B" r = get_cell (sheet st) "B" r
    end
    /\ consecutive (added_rows entries)
    /\ Forall (fun p => get_cell (sheet st') "B" p.2 = Cell (VStr p.1) (Some red_fill))
              (added_rows entries).
Proof.
  intros Hne HrB HoB Hrun.
  induction Hrun as [st|st row rest e Hstep|st row rest st1 c entries o Hstep Hrun IH];
    intros st' Ho.
  - injection Ho as <-. simpl. split; [reflexivity|]. split; [|constructor].
    intros k n1 r1 n2 r2 H. rewrite lookup_nil in H. discriminate.
  - discriminate.
  - specialize (IH st' Ho). destruct IH as (IHhead & IHcons & IHall).
    rewrite added_rows_cons.
    destruct (row_step_column_B _ _ _ _ _ _ _ Hne HrB HoB Hstep)
      as [[Hadd HB]|(k & Hadd & Hlast & Hlast1 & Hcell & HB)]; rewrite Hadd.
    + simpl. split; [|split; assumption].
      destruct (added_rows entries) as [|[n i] l].
      * intros r. rewrite IHhead. apply HB.
      * destruct IHhead as (Hi & Hl & Hr). split; [exact Hi|]. split.
        -- eapply last_b_row_ext; [|exact Hl]. intros r. symmetry. apply HB.
        -- intros r Hlt. rewrite Hr by exact Hlt. apply HB.
    + simpl. destruct (added_rows entries) as [|[n i] l] eqn:Eadd.
      * split; [|split].
        -- split; [lia|]. split; [replace (k + 1 - 1)%nat with k by lia; exact Hlast|].
           intros r Hr. rewrite IHhead. apply HB. exact Hr.
        -- intros j n1 r1 n2 r2 _ H2. destruct j; discriminate.
        -- constructor; [|constructor]. simpl. rewrite IHhead. exact Hcell.
      * destruct IHhead as (Hi & Hl & Hr).
        assert (Ei : i = S (k + 1)).
        { pose proof (last_b_row_unique _ _ _ Hl Hlast1). lia. }
        subst i. split; [|split].
        -- split; [lia|]. split; [replace (k + 1 - 1)%nat with k by lia; exact Hlast|].
           intros r Hlt. rewrite Hr by lia. apply HB. exact Hlt.
        -- intros j n1 r1 n2 r2 H1 H2. destruct j as [|j].
           ++ simpl in H1, H2. injection H1 as <- <-. injection H2 as <- <-. reflexivity.
           ++ simpl in H1. apply (IHcons j n1 r1 n2 r2); assumption.
        -- constructor; [|exact IHall]. simpl. rewrite Hr by lia. exact Hcell.
Qed.





(** ** Duplicates *)




Lemma run_length reg_col ot_col name_to_row st data entries o :
  rows_run reg_col ot_col name_to_row st data entries o ->
  length entries <= length data
  /\ forall st', o = Return st' -> length entries = length data.
Proof.
  induction 1 as [st|st row rest e Hstep|st row rest st1 c entries o Hstep Hrun [IH1 IH2]];
    simpl.
  - split; [lia|reflexivity].
  - split; [lia|discriminate].
  - split; [lia|]. intros st' Ho. rewrite (IH2 st' Ho). reflexivity.
Qed.



(** ** The run as a whole *)

Lemma merge_rows_app reg_col ot_col name_to_row st pre rest m :
  merge_rows reg_col ot_col name_to_row st (pre ++ rest) m
  = match merge_rows reg_col ot_col name_to_row st pre m with
    | (Return st1, m1) => merge_rows reg_col ot_col name_to_row st1 rest m1
    | (Raise e, m1) => (Raise e, m1)
    end.
Proof.
  revert st m. induction pre as [|row pre IH]; intros st m; [reflexivity|].
  cbn [app merge_rows]. unfold mbind, M_bind.
  destruct (merge_row reg_col ot_col name_to_row st row m) as [[st1|e] m1];
    [apply IH|reflexivity].
Qed.

Lemma merge_rows_files reg_col ot_col name_to_row st data m o m' :
  merge_rows reg_col ot_col name_to_row st data m = (o, m') -> files m' = files m.
Proof.
  destruct (merge_rows_run reg_col ot_col name_to_row st data m)
    as (entries & o2 & _ & Heq).
  rewrite Heq. intros [= _ <-]. reflexivity.
Qed.

Lemma load_workbook_found template_path m ws :
  workbooks (files m) !! template_path = Some (inr ws) ->
  load_workbook template_path m = (Return ws, m).
Proof. intros H. unfold load_workbook. rewrite H. reflexivity. Qed.

Section Run.

Variable num_str : Q -> string.

Lemma process_excel_nonempty template_path data week output_path :
  data <> [] ->
  process_excel num_str template_path (Some data) week output_path
  = try_except (process_excel_body num_str template_path data week output_path)
               (on_error template_path).
Proof. intros H. destruct data; [contradiction|reflexivity]. Qed.

Lemma on_error_result template_path e m :
  exists msg,
    on_error template_path e m
    = (Return (false, msg),
       add_log m (ERROR, if is_FileNotFoundError e
                         then TemplateNotFound template_path else ErrorMsg e))
    /\ msg = (if is_FileNotFoundError e
              then "Template not found: " ++ template_path
              else "Error processing: " ++ exn_msg e)%string.
Proof.
  unfold on_error. destruct (is_FileNotFoundError e); eexists; split; reflexivity.
Qed.

(** A run in which the loop raises: the failure result, and no file. *)
Lemma process_excel_loop_raises template_path data week output_path m ws0
    reg_col ot_col e m1 :
  data <> [] ->
  workbooks (files m) !! template_path = Some (inr ws0) ->
  week_columns week = Some (reg_col, ot_col) ->
  merge_rows reg_col ot_col (build_name_to_row num_str ws0)
    {| sheet := ws0; processed := ∅ |} data m = (Raise e, m1) ->
  exists msg,
    process_excel num_str template_path (Some data) week output_path m
    = (Return (false, msg),
       add_log m1 (ERROR, if is_FileNotFoundError e
                          then TemplateNotFound template_path else ErrorMsg e))
    /\ msg = (if is_FileNotFoundError e
              then "Template not found: " ++ template_path
              else "Error processing: " ++ exn_msg e)%string.
Proof.
  intros Hne Hload Hweek Hrows.
  rewrite process_excel_nonempty by exact Hne.
  unfold try_except, process_excel_body, mbind, M_bind.
  rewrite (load_workbook_found _ _ _ Hload), Hweek. simpl. rewrite Hrows.
  apply on_error_result.
Qed.

End Run.

(** C10. When the loop reaches an unmatched record while no row from 2 to
    the last row of the sheet has a value in column B, the maximum over
    the empty collection of rows raises; the run returns [(False,
    message)] and saves no file, whatever was merged in memory before. *)
Theorem no_anchor_row_fails (num_str : Q -> string)
    (template_path week output_path : string) (m : machine) (ws0 : worksheet)
    (reg_col ot_col : string) (pre post : dataframe) (row : frame_row)
    (hours : Q) (st : merge_state) (m1 : machine)
    (Hload : workbooks (files m) !! template_path = Some (inr ws0))
    (Hweek : week_columns week = Some (reg_col, ot_col))
    (Hpre : merge_rows reg_col ot_col (build_name_to_row num_str ws0)
              {| sheet := ws0; processed := ∅ |} pre m = (Return st, m1))
    (Hvalid : valid_row row hours)
    (Hignore : key_of row ∉ ignore_names_set)
    (Hfresh : key_of row ∉ processed st)
    (Hunmatched : build_name_to_row num_str ws0 !! key_of row = None)
    (HnoB : forall r, 2 <= r <= max_row (sheet st) ->
                      truthy (value (get_cell (sheet st) "B" r)) = false) :
  exists e m',
    py_max_seq (b_rows (sheet st)) = Raise e
    /\ exn_kind e = ValueError
    /\ merge_row reg_col ot_col (build_name_to_row num_str ws0) st row m1
       = (Raise e, m1)
    /\ process_excel num_str template_path (Some (pre ++ row :: post)) week
         output_path m
       = (Return (false, "Error processing: " ++ exn_msg e)%string, m')
    /\ files m' = files m.
Proof.
  apply b_rows_nil in HnoB.
  pose proof (merge_row_no_anchor reg_col ot_col _ st row m1 hours
                Hvalid Hignore Hfresh Hunmatched HnoB) as Hrow.
  assert (Hrows : merge_rows reg_col ot_col (build_name_to_row num_str ws0)
                    {| sheet := ws0; processed := ∅ |} (pre ++ row :: post) m
                  = (Raise (Exn ValueError "max() arg is an empty sequence"), m1)).
  { rewrite merge_rows_app, Hpre. cbn [merge_rows]. unfold mbind, M_bind.
    rewrite Hrow. reflexivity. }
  assert (Hne : pre ++ row :: post <> []) by (destruct pre; discriminate).
  destruct (process_excel_loop_raises num_str template_path _ week output_path
              m ws0 reg_col ot_col _ m1 Hne Hload Hweek Hrows) as (msg & Hrun & ->).
  eexists _, _. split; [rewrite HnoB; reflexivity|].
  split; [reflexivity|]. split; [exact Hrow|]. split; [exact Hrun|].
  simpl. apply (merge_rows_files _ _ _ _ _ _ _ _ Hpre).
Qed.

Lemma no_anchor_row_fails_witness :
  exists e m',
    process_excel (fun _ => "") "template.xlsx"
      (Some ([record 0 "Jane Doe" 45] ++ record 1 "New Guy" 12 :: [record 2 "Bob Ray" 8]))
      "Week 1" "out.xlsx" {| files := no_b_world; log := [] |}
    = (Return (false, "Error processing: " ++ exn_msg e)%string, m')
    /\ files m' = no_b_world.
Proof.
  destruct (no_anchor_row_fails (fun _ => "") "template.xlsx" "Week 1" "out.xlsx"
              {| files := no_b_world; log := [] |} no_b_template "S" "T"
              [record 0 "Jane Doe" 45] [record 2 "Bob Ray" 8]
              (record 1 "New Guy" 12) 12
              {| sheet := write_hours "S" "T" 2 45 no_b_template;
                 processed := ∅ ∪ {[ "jane doe" ]} |}
              (add_log {| files := no_b_world; log := [] |}
                 (DEBUG, Updated "Jane Doe" 2)))
    as (e & m' & _ & _ & _ & Hrun & Hfiles).
  - reflexivity.
  - reflexivity.
  - vm_compute. reflexivity.
  - split; reflexivity.
  - vm_compute. intros H. discriminate H.
  - vm_compute. intros H. discriminate H.
  - reflexivity.
  - apply b_rows_nil. reflexivity.
  - exists e, m'. split; [exact Hrun|exact Hfiles].
Defined.

(** ** Validation and failure results *)

(** C6, as amended.  Without records, [process_excel] returns at once
    with the message about the CSV data, touching nothing.  With a week
    selector that is neither [Week 1] nor [Week 2] it returns [False] and
    writes no file; the message is the one about the week choice when the
    template loads, since the workbook is loaded before the selector is
    looked at. *)
Theorem validation_failures (num_str : Q -> string)
    (template_path : string) (csv_data : option dataframe)
    (week output_path : string) (m : machine) :
  (csv_data = None \/ csv_data = Some [] ->
   process_excel num_str template_path csv_data week output_path m
   = (Return (false, "No valid CSV data provided."), m))
  /\ (week <> "Week 1" -> week <> "Week 2" ->
      exists msg m',
        process_excel num_str template_path csv_data week output_path m
        = (Return (false, msg), m')
        /\ files m' = files m
        /\ (forall ws row rest,
              workbooks (files m) !! template_path = Some (inr ws) ->
              csv_data = Some (row :: rest) ->
              msg = "Invalid week choice. Must be 'Week 1' or 'Week 2'."
              /\ m' = m)).
Proof.
  split.
  - intros [-> | ->]; reflexivity.
  - intros H1 H2. pose proof (week_columns_none week H1 H2) as Hw.
    destruct csv_data as [[|row rest]|].
    + eexists _, _. split; [reflexivity|]. split; [reflexivity|]. discriminate.
    + rewrite process_excel_nonempty by discriminate.
      unfold try_except, process_excel_body, mbind, M_bind, load_workbook.
      destruct (workbooks (files m) !! template_path) as [[e|ws]|] eqn:El; rewrite ?Hw; simpl.
      * destruct (on_error_result template_path e m) as (msg & -> & _).
        eexists _, _. split; [reflexivity|]. split; [reflexivity|]. discriminate.
      * eexists _, _. split; [reflexivity|]. split; [reflexivity|].
        intros ws2 row2 rest2 _ _. split; reflexivity.
      * destruct (on_error_result template_path (file_not_found template_path) m)
          as (msg & -> & _).
        eexists _, _. split; [reflexivity|]. split; [reflexivity|]. discriminate.
    + eexists _, _. split; [reflexivity|]. split; [reflexivity|]. discriminate.
Qed.

(** C6 as it is worded fails: with an invalid week selector and a
    template that is not there, the message is the one of the missing
    template, not a validation message. *)
Lemma invalid_week_missing_template :
  week_columns "Week 3" = None
  /\ (process_excel (fun _ => "") "missing.xlsx" (Some [record 0 "Jane Doe" 45])
        "Week 3" "out.xlsx" start).1
     = Return (false, "Template not found: missing.xlsx")
  /\ ~ (exists m',
          process_excel (fun _ => "") "missing.xlsx" (Some [record 0 "Jane Doe" 45])
            "Week 3" "out.xlsx" start
          = (Return (false, "Invalid week choice. Must be 'Week 1' or 'Week 2'."), m')).
Proof.
  split; [reflexivity|]. split; [reflexivity|].
  intros [m' H]. apply (f_equal fst) in H. vm_compute in H. discriminate H.
Qed.

(** C7. Neither entry point raises: [read_pos_csv] returns a frame or
    [None] ([None] for a missing file and for a file whose reading
    raises), and [process_excel] returns [(True, message)] or [(False,
    message)], the message of a failure carrying its description. *)
Theorem entry_points_never_raise (num_str : Q -> string) :
  (forall csv_path m,
     exists r m',
       read_pos_csv csv_path m = (Return r, m')
       /\ (forall e m1, read_pos_csv_body csv_path m = (Raise e, m1) -> r = None)
       /\ files m' = files m
       /\ (csv_files (files m) !! csv_path = None -> r = None)
       /\ (forall e, csv_files (files m) !! csv_path = Some (inl e) -> r = None))
  /\ (forall template_path csv_data week output_path m,
        exists ok msg m',
          process_excel num_str template_path csv_data week output_path m
          = (Return (ok, msg), m')
          /\ (ok = true -> msg = ("Saved to " ++ output_path)%string)
          /\ (ok = false ->
              files m' = files m
              /\ (msg = "No valid CSV data provided."
                  \/ msg = "Invalid week choice. Must be 'Week 1' or 'Week 2'."
                  \/ msg = ("Template not found: " ++ template_path)%string
                  \/ exists e, msg = ("Error processing: " ++ exn_msg e)%string))).
Proof.
  split.
  - intros csv_path m. unfold read_pos_csv, try_except.
    destruct (read_pos_csv_body csv_path m) as [[r|e] m1] eqn:Ebody.
    + exists r, m1. split; [reflexivity|].
      split; [intros e2 m2 H; discriminate H|].
      revert Ebody. unfold read_pos_csv_body, mbind, M_bind, pd_read_csv_usecols,
        mbind, M_bind, pd_read_csv, lift.
      destruct (csv_files (files m) !! csv_path) as [[e|full]|] eqn:Ef;
        try discriminate.
      destruct (scan_cutoff _ _ _) as [[k|]|e]; simpl; try discriminate;
        rewrite ?Ef;
        destruct (index_of "Name" (columns full)), (index_of "Work Hours" (columns full));
        simpl; try discriminate;
        destruct (List.filter _ _); simpl; intros [= <- <-];
        (split; [reflexivity|split; discriminate]).
    + assert (Hfiles : files m1 = files m).
      { revert Ebody. unfold read_pos_csv_body, mbind, M_bind, pd_read_csv_usecols,
          mbind, M_bind, pd_read_csv, lift, raise.
        destruct (csv_files (files m) !! csv_path) as [[e2|full]|] eqn:Ef;
          [intros [= _ <-]; reflexivity| |intros [= _ <-]; reflexivity].
        destruct (scan_cutoff _ _ _) as [[k|]|e2]; simpl;
          [| |intros [= _ <-]; reflexivity];
          rewrite ?Ef;
          destruct (index_of "Name" (columns full)), (index_of "Work Hours" (columns full));
          simpl; try (intros [= _ <-]; reflexivity);
          destruct (List.filter _ _); simpl; discriminate. }
      destruct (is_FileNotFoundError e); eexists _, _;
        (split; [reflexivity|]); (split; [reflexivity|]); simpl;
        (split; [exact Hfiles|]); split; reflexivity.
  - intros template_path csv_data week output_path m.
    destruct csv_data as [[|row rest]|].
    + eexists _, _, _. split; [reflexivity|]. split; [discriminate|]. auto.
    + rewrite process_excel_nonempty by discriminate. unfold try_except.
      destruct (process_excel_body num_str template_path (row :: rest) week output_path m)
        as [[[ok msg]|e] m1] eqn:Ebody.
      * exists ok, msg, m1. split; [reflexivity|].
        revert Ebody. unfold process_excel_body, mbind, M_bind, load_workbook.
        destruct (workbooks (files m) !! template_path) as [[e|ws]|]; try discriminate.
        destruct (week_columns week) as [[reg_col ot_col]|].
        -- destruct (merge_rows _ _ _ _ _ _) as [[st|e] m2]; [|discriminate].
           unfold save. destruct (save_fault (files m2) output_path); [discriminate|].
           simpl. intros [= <- <- <-]. split; [reflexivity|discriminate].
        -- simpl. intros [= <- <- <-]. split; [discriminate|]. auto.
      * assert (Hfiles : files m1 = files m).
        { revert Ebody. unfold process_excel_body, mbind, M_bind, load_workbook.
          destruct (workbooks (files m) !! template_path) as [[e2|ws]|];
            [intros [= _ <-]; reflexivity| |intros [= _ <-]; reflexivity].
          destruct (week_columns week) as [[reg_col ot_col]|]; [|discriminate].
          destruct (merge_rows _ _ _ _ _ _) as [[st|e2] m2] eqn:Erows.
          - unfold save. destruct (save_fault (files m2) output_path); [|discriminate].
            intros [= _ <-]. eapply merge_rows_files. exact Erows.
          - intros [= _ <-]. eapply merge_rows_files. exact Erows. }
        destruct (on_error_result template_path e m1) as (msg & -> & ->).
        eexists _, _, _. split; [reflexivity|]. split; [discriminate|].
        intros _. split; [exact Hfiles|].
        destruct (is_FileNotFoundError e); eauto.
    + eexists _, _, _. split; [reflexivity|]. split; [discriminate|]. auto.
Qed.

(** ** The split of the hours *)


Example hours_split_45 :
  reg_hours 45 = 40%Q /\ ot_hours 45 = 5%Q /\ or_blank (ot_hours 45) = VNum 5
  /\ reg_hours (75 # 2) = (75 # 2)%Q /\ or_blank (ot_hours (75 # 2)) = VStr "".
Proof. repeat split. Qed.

(** The scenario of the specification, end to end. *)
Example end_to_end :
  let r := process_excel (fun _ => "") "template.xlsx"
             (Some [record 0 "Jane Doe" 45; record 1 "Online" 10;
                    record 2 "Jane Doe" 5])
             "Week 1" "out.xlsx" start in
  r.1 = Return (true, "Saved to out.xlsx")
  /\ log r.2 = [ (DEBUG, Updated "Jane Doe" 2); (INFO, SkippingIgnored "Online");
                 (WARNING, DuplicateEntry "Jane Doe") ]
  /\ exists ws, workbooks (files r.2) !! "out.xlsx" = Some (inr ws)
                /\ value (get_cell ws "S" 2) = VNum 40
                /\ value (get_cell ws "T" 2) = VNum 5.
Proof.
  split; [vm_compute; reflexivity|]. split; [vm_compute; reflexivity|].
  eexists. split; [vm_compute; reflexivity|]. split; reflexivity.
Qed.

(** ** Further properties of the merger *)

(** The names of the ignore set are never matched or inserted: a record
    with such a name leaves the sheet and the set of processed names as
    they are. *)
Theorem ignored_names_skipped (reg_col ot_col : string)
    (name_to_row : gmap string nat) (st : merge_state) (row : frame_row)
    (m : machine) (Hkey : key_of row ∈ ignore_names_set) :
  (exists c,
     merge_row reg_col ot_col name_to_row st row m = (Return st, add_log m c)
     /\ is_write c = false)
  /\ (forall key,
        key ∈ ignore_names_set <->
        key = "h r host" \/ key = "online" \/ key = "s common server"
        \/ key = "s johnny server").
Proof.
  split.
  - destruct (merge_row_step reg_col ot_col name_to_row st row m)
      as (res & Hstep & Heq).
    rewrite Heq. inversion Hstep; subst; simpl; try contradiction.
    + eexists. split; reflexivity.
    + eexists. split; reflexivity.
  - intros key. unfold ignore_names_set.
    change (normalize "H-R Host") with "h r host".
    change (normalize "Online") with "online".
    change (normalize "S-COMMON Server") with "s common server".
    change (normalize "S-Johnny Server") with "s johnny server".
    rewrite !elem_of_union, !elem_of_singleton. tauto.
Qed.

Lemma ignored_names_skipped_witness :
  exists c,
    merge_row "S" "T" ∅ {| sheet := small_template; processed := ∅ |}
      (record 0 "ONLINE" 10) start
    = (Return {| sheet := small_template; processed := ∅ |}, add_log start c)
    /\ is_write c = false.
Proof.
  destruct (ignored_names_skipped "S" "T" ∅
              {| sheet := small_template; processed := ∅ |}
              (record 0 "ONLINE" 10) start) as [H _].
  - vm_compute. reflexivity.
  - exact H.
Defined.

Section LastWins.

Variable num_str : Q -> string.

Lemma build_fold ws k key r :
  foldl (fun (m : gmap string nat) row =>
           let val := value (get_cell ws "C" row) in
           if truthy val then <[normalize (py_str num_str val) := row]> m else m)
        ∅ (seq 2 k) !! key = Some r
  <-> 2 <= r < 2 + k
      /\ names_row num_str ws key r
      /\ forall r2, r < r2 < 2 + k -> ~ names_row num_str ws key r2.
Proof.
  revert r. induction k as [|k IH]; intros r.
  - simpl. rewrite lookup_empty. split; [discriminate|]. intros [H _]. lia.
  - rewrite seq_S, foldl_app. cbn [foldl].
    set (m := foldl _ ∅ (seq 2 k)) in *.
    unfold names_row in *.
    destruct (truthy (value (get_cell ws "C" (2 + k)))) eqn:Et.
    + destruct (decide (normalize (py_str num_str (value (get_cell ws "C" (2 + k)))) = key))
        as [Ek|Ek].
      * rewrite Ek, lookup_insert_eq. split.
        -- intros [= <-]. split; [lia|]. split; [split; assumption|]. intros r2 Hr2. lia.
        -- intros (Hr & _ & Hlater). f_equal.
           destruct (decide (r = 2 + k)%nat) as [->|Hne]; [reflexivity|].
           exfalso. apply (Hlater (2 + k)%nat); [lia|]. split; assumption.
      * rewrite lookup_insert_ne by exact Ek. rewrite IH. split.
        -- intros (Hr & Hn & Hlater). split; [lia|]. split; [exact Hn|].
           intros r2 Hr2 [Ht2 Hk2].
           destruct (decide (r2 = 2 + k)%nat) as [->|Hne]; [contradiction|].
           apply (Hlater r2); [lia|]. split; assumption.
        -- intros (Hr & Hn & Hlater).
           assert (r <> 2 + k)%nat by (intros ->; destruct Hn as [_ Hn]; contradiction).
           split; [lia|]. split; [exact Hn|]. intros r2 Hr2. apply Hlater. lia.
    + rewrite IH. split.
      * intros (Hr & Hn & Hlater). split; [lia|]. split; [exact Hn|].
        intros r2 Hr2 [Ht2 Hk2].
        destruct (decide (r2 = 2 + k)%nat) as [->|Hne]; [congruence|].
        apply (Hlater r2); [lia|]. split; assumption.
      * intros (Hr & Hn & Hlater).
        assert (r <> 2 + k)%nat by (intros ->; destruct Hn as [Hn _]; congruence).
        split; [lia|]. split; [exact Hn|]. intros r2 Hr2. apply Hlater. lia.
Qed.

End LastWins.

(** In the lookup a later row of the template replaces an earlier one with
    the same key: the row recorded under a key is the last row, from row
    2 to the last row of the sheet, whose column-C value normalizes to
    the key. *)
Theorem name_lookup_last_wins (num_str : Q -> string) (ws : worksheet)
    (key : string) (r : nat) :
  build_name_to_row num_str ws !! key = Some r
  <-> 2 <= r <= max_row ws
      /\ names_row num_str ws key r
      /\ forall r2, r < r2 <= max_row ws -> ~ names_row num_str ws key r2.
Proof.
  unfold build_name_to_row, py_range. rewrite build_fold.
  assert (1 <= max_row ws) by (unfold max_row; lia).
  split; intros (Hr & Hn & Hlater); (split; [lia|]); (split; [exact Hn|]);
    intros r2 Hr2; apply Hlater; lia.
Qed.

(** The lookup is built once, before the loop, and a row inserted later
    does not change it: here Bob Ray, recorded at row 3, is moved to row
    4 by the insertion of New Guy at row 3, and his hours are then written
    into row 3. *)
Example update_after_insertion :
  let r := process_excel (fun _ => "") "template.xlsx"
             (Some [record 0 "New Guy" 12; record 1 "Bob Ray" 45])
             "Week 1" "out.xlsx" {| files := trailing_world; log := [] |} in
  r.1 = Return (true, "Saved to out.xlsx")
  /\ log r.2 = [ (INFO, AddedNew "New Guy" 3); (DEBUG, Updated "Bob Ray" 3) ]
  /\ exists ws, workbooks (files r.2) !! "out.xlsx" = Some (inr ws)
                /\ value (get_cell ws "B" 3) = VStr "New Guy"
                /\ value (get_cell ws "S" 3) = VNum 40
                /\ value (get_cell ws "T" 3) = VNum 5
                /\ value (get_cell ws "C" 4) = VStr "Bob Ray"
                /\ value (get_cell ws "S" 4) = VNone.
Proof.
  split; [vm_compute; reflexivity|]. split; [vm_compute; reflexivity|].
  eexists. split; [vm_compute; reflexivity|]. repeat split.
Qed.

(** ** Paths *)

Lemma split_on_pieces sep cur s :
  sep ∉ cur -> Forall (fun piece => sep ∉ piece) (PurePath.split_on sep cur s).
Proof.
  revert cur. induction s as [|c s IH]; intros cur Hcur; simpl.
  - constructor; [|constructor]. rewrite list_elem_of_In, <- in_rev, <- list_elem_of_In.
    exact Hcur.
  - destruct (decide (c = sep)) as [->|Hne].
    + rewrite bool_decide_eq_true_2 by reflexivity. constructor.
      * rewrite list_elem_of_In, <- in_rev, <- list_elem_of_In. exact Hcur.
      * apply IH. apply not_elem_of_nil.
    + rewrite bool_decide_eq_false_2 by exact Hne. apply IH.
      rewrite not_elem_of_cons. split; [congruence|exact Hcur].
Qed.

Lemma split_on_whole sep cur s :
  sep ∉ s -> PurePath.split_on sep cur s = [rev cur ++ s].
Proof.
  revert cur. induction s as [|c s IH]; intros cur Hs; simpl.
  - rewrite app_nil_r. reflexivity.
  - apply not_elem_of_cons in Hs. destruct Hs as [Hc Hs].
    rewrite bool_decide_eq_false_2 by congruence.
    rewrite IH by exact Hs. simpl. rewrite <- app_assoc. reflexivity.
Qed.

Lemma split_on_last sep cur a b :
  sep ∉ b ->
  exists pieces, PurePath.split_on sep cur (a ++ sep :: b) = pieces ++ [b].
Proof.
  intros Hb. revert cur. induction a as [|c a IH]; intros cur; simpl.
  - rewrite bool_decide_eq_true_2 by reflexivity.
    exists [rev cur]. rewrite split_on_whole by exact Hb. reflexivity.
  - destruct (bool_decide (c = sep)).
    + destruct (IH []) as [pieces ->]. exists (rev cur :: pieces). reflexivity.
    + apply IH.
Qed.

Lemma name_no_slash path : "/"%char ∉ PurePath.name path.
Proof.
  unfold PurePath.name, PurePath.tail.
  destruct (last _) as [x|] eqn:E; simpl; [|apply not_elem_of_nil].
  apply last_Some in E. destruct E as [l' E].
  assert (Hin : In x (List.filter
                       (fun x => negb (bool_decide (x = []))
                                 && negb (bool_decide (x = ["."%char])))
                       (PurePath.split_on "/"%char [] path))).
  { rewrite E. apply in_or_app. right. left. reflexivity. }
  apply filter_In in Hin. destruct Hin as [Hin _].
  pose proof (split_on_pieces "/"%char [] path (not_elem_of_nil _)) as Hall.
  rewrite Forall_forall in Hall. apply Hall. apply list_elem_of_In. exact Hin.
Qed.

Lemma name_not_dot path : PurePath.name path <> ["."%char].
Proof.
  unfold PurePath.name, PurePath.tail.
  destruct (last _) as [x|] eqn:E; simpl; [|discriminate].
  apply last_Some in E. destruct E as [l' E].
  assert (Hin : In x (List.filter
                       (fun x => negb (bool_decide (x = []))
                                 && negb (bool_decide (x = ["."%char])))
                       (PurePath.split_on "/"%char [] path))).
  { rewrite E. apply in_or_app. right. left. reflexivity. }
  apply filter_In in Hin. destruct Hin as [_ Hx].
  apply andb_true_iff in Hx. destruct Hx as [_ Hx].
  apply negb_true_iff, bool_decide_eq_false in Hx. exact Hx.
Qed.

Lemma name_of_file_name f : file_name f -> PurePath.name f = f.
Proof.
  intros (Hs & Hne & Hdot). unfold PurePath.name, PurePath.tail.
  rewrite split_on_whole by exact Hs. simpl.
  rewrite bool_decide_eq_false_2 by exact Hne.
  rewrite bool_decide_eq_false_2 by exact Hdot. reflexivity.
Qed.

Lemma name_of_path dir f :
  file_name f -> PurePath.name (dir ++ "/"%char :: f) = f.
Proof.
  intros (Hs & Hne & Hdot). unfold PurePath.name, PurePath.tail.
  destruct (split_on_last "/"%char [] dir f Hs) as [pieces ->].
  rewrite List.filter_app. simpl.
  rewrite bool_decide_eq_false_2 by exact Hne.
  rewrite bool_decide_eq_false_2 by exact Hdot. simpl.
  rewrite last_snoc. reflexivity.
Qed.

Lemma stem_suffix path :
  PurePath.stem path ++ PurePath.suffix path = PurePath.name path.
Proof.
  unfold PurePath.stem, PurePath.suffix.
  destruct (PurePath.suffix_index (PurePath.name path)).
  - apply take_drop.
  - apply app_nil_r.
Qed.

(** The last dot of a text: what follows it has no dot. *)
Lemma rfind_dot_Some s i :
  PurePath.rfind_dot s = Some i ->
  exists rest, drop i s = "."%char :: rest /\ ("."%char ∉ rest) /\ i < length s.
Proof.
  revert i. induction s as [|c s IH]; intros i; simpl; [discriminate|].
  destruct (PurePath.rfind_dot s) as [k|] eqn:E.
  - intros [= <-]. destruct (IH k eq_refl) as (rest & Hd & Hr & Hk).
    exists rest. simpl. split; [exact Hd|]. split; [exact Hr|lia].
  - destruct (decide (c = "."%char)) as [->|Hne].
    + rewrite bool_decide_eq_true_2 by reflexivity. intros [= <-].
      exists s. simpl. split; [reflexivity|]. split; [|lia].
      clear IH. induction s as [|d s IHs]; [apply not_elem_of_nil|].
      simpl in E. destruct (PurePath.rfind_dot s); [discriminate|].
      destruct (decide (d = "."%char)) as [->|Hd].
      * rewrite bool_decide_eq_true_2 in E by reflexivity. discriminate.
      * apply not_elem_of_cons. split; [congruence|]. apply IHs. reflexivity.
    + rewrite bool_decide_eq_false_2 by exact Hne. discriminate.
Qed.

Lemma rfind_dot_app a rest :
  "."%char ∉ rest ->
  PurePath.rfind_dot (a ++ "."%char :: rest) = Some (length a).
Proof.
  intros Hr.
  assert (Hnone : PurePath.rfind_dot rest = None).
  { induction rest as [|d rest IH]; [reflexivity|]. cbn [PurePath.rfind_dot].
    apply not_elem_of_cons in Hr. destruct Hr as [Hd Hr].
    rewrite (IH Hr). rewrite bool_decide_eq_false_2 by congruence. reflexivity. }
  induction a as [|c a IH]; cbn [PurePath.rfind_dot app length].
  - rewrite Hnone. rewrite bool_decide_eq_true_2 by reflexivity. reflexivity.
  - rewrite IH. reflexivity.
Qed.

Lemma suffix_index_Some nm i :
  PurePath.suffix_index nm = Some i ->
  0 < i
  /\ exists d rest, drop i nm = "."%char :: d :: rest /\ ("."%char ∉ d :: rest)
                    /\ length (take i nm) = i.
Proof.
  unfold PurePath.suffix_index.
  destruct (PurePath.rfind_dot nm) as [k|] eqn:E; [|discriminate].
  destruct (Nat.ltb 0 k && Nat.ltb k (length nm - 1)) eqn:Ec; [|discriminate].
  intros [= <-]. apply andb_true_iff in Ec. destruct Ec as [E0 E1].
  apply Nat.ltb_lt in E0, E1. split; [exact E0|].
  destruct (rfind_dot_Some nm k E) as (rest & Hd & Hr & Hk).
  assert (Hlen : length (drop k nm) = length nm - k) by apply length_drop.
  rewrite Hd in Hlen. simpl in Hlen.
  destruct rest as [|d rest]; [simpl in Hlen; lia|].
  exists d, rest. split; [exact Hd|]. split; [exact Hr|].
  rewrite length_take. lia.
Qed.

Lemma chars_app (a b : string) :
  list_ascii_of_string (a ++ b)%string
  = list_ascii_of_string a ++ list_ascii_of_string b.
Proof. induction a as [|c a IH]; simpl; [reflexivity|]. rewrite IH. reflexivity. Qed.

Lemma generate_output_filename_chars p sfx :
  list_ascii_of_string (generate_output_filename p sfx)
  = PurePath.stem (list_ascii_of_string p) ++ list_ascii_of_string sfx
    ++ PurePath.suffix (list_ascii_of_string p).
Proof.
  unfold generate_output_filename. rewrite !chars_app, !list_ascii_of_string_of_list_ascii.
  reflexivity.
Qed.

Lemma stem_no_slash path : "/"%char ∉ PurePath.stem path.
Proof.
  intros H. apply (name_no_slash path). rewrite <- stem_suffix.
  apply elem_of_app. left. exact H.
Qed.

Lemma suffix_no_slash path : "/"%char ∉ PurePath.suffix path.
Proof.
  intros H. apply (name_no_slash path). rewrite <- stem_suffix.
  apply elem_of_app. right. exact H.
Qed.

(** The result of [generate_output_filename] is a bare file name. *)
Lemma output_is_file_name p sfx :
  "/"%char ∉ list_ascii_of_string sfx -> sfx <> "" -> sfx <> "." ->
  file_name (list_ascii_of_string (generate_output_filename p sfx)).
Proof.
  intros Hs Hne Hdot. rewrite generate_output_filename_chars.
  set (st := PurePath.stem (list_ascii_of_string p)).
  set (ex := PurePath.suffix (list_ascii_of_string p)).
  assert (Hc : list_ascii_of_string sfx <> []).
  { destruct sfx; [contradiction|discriminate]. }
  split; [|split].
  - rewrite !elem_of_app. intros [H|[H|H]].
    + exact (stem_no_slash _ H).
    + exact (Hs H).
    + exact (suffix_no_slash _ H).
  - intros H. apply app_eq_nil in H. destruct H as [_ H].
    apply app_eq_nil in H. destruct H as [H _]. contradiction.
  - intros H.
    assert (Hlen : length (st ++ list_ascii_of_string sfx ++ ex) = 1%nat)
      by (rewrite H; reflexivity).
    rewrite !length_app in Hlen.
    destruct (list_ascii_of_string sfx) as [|c [|c2 l]] eqn:Es; simpl in Hlen;
      [contradiction| |lia].
    destruct st; [|simpl in Hlen; lia]. destruct ex; [|simpl in Hlen; lia].
    simpl in H. injection H as ->.
    apply Hdot. rewrite <- (string_of_list_ascii_of_string sfx), Es. reflexivity.
Qed.

(** With an empty suffix [generate_output_filename] gives back the file
    name of the template: the stem and the extension it splits the name
    into join to the name again, and the name is the part of the path
    after its last slash. *)
Theorem output_filename_round_trip (dir file : string)
    (Hfile : file_name (list_ascii_of_string file)) :
  generate_output_filename (dir ++ "/" ++ file) "" = file
  /\ generate_output_filename file "" = file
  /\ forall p, list_ascii_of_string (generate_output_filename p "")
               = PurePath.name (list_ascii_of_string p).
Proof.
  assert (Hall : forall p, list_ascii_of_string (generate_output_filename p "")
                           = PurePath.name (list_ascii_of_string p)).
  { intros p. rewrite generate_output_filename_chars. simpl. apply stem_suffix. }
  split; [|split; [|exact Hall]].
  - rewrite <- (string_of_list_ascii_of_string (generate_output_filename _ _)).
    rewrite Hall, !chars_app. simpl. rewrite name_of_path by exact Hfile.
    apply string_of_list_ascii_of_string.
  - rewrite <- (string_of_list_ascii_of_string (generate_output_filename _ _)).
    rewrite Hall, name_of_file_name by exact Hfile.
    apply string_of_list_ascii_of_string.
Qed.

Lemma output_filename_round_trip_witness :
  generate_output_filename ("/home/me" ++ "/" ++ "payroll.v2.xlsx") "" = "payroll.v2.xlsx"
  /\ generate_output_filename "payroll.v2.xlsx" "" = "payroll.v2.xlsx".
Proof.
  destruct (output_filename_round_trip "/home/me" "payroll.v2.xlsx") as (H1 & H2 & _).
  - split; [|split]; [|discriminate|discriminate].
    apply (bool_decide_unpack _). vm_compute. exact I.
  - split; [exact H1|exact H2].
Defined.

(** The output name keeps the extension of the template and puts the
    suffix before it: when the template's name has an extension and the
    suffix has no slash, the result is a bare file name whose extension is
    the template's and whose stem is the template's followed by the
    suffix. *)
Theorem output_filename_keeps_extension (p sfx : string)
    (Hext : PurePath.suffix (list_ascii_of_string p) <> [])
    (Hsfx : "/"%char ∉ list_ascii_of_string sfx) :
  let out := list_ascii_of_string (generate_output_filename p sfx) in
  ("/"%char ∉ out)
  /\ PurePath.name out = out
  /\ PurePath.suffix out = PurePath.suffix (list_ascii_of_string p)
  /\ PurePath.stem out
     = PurePath.stem (list_ascii_of_string p) ++ list_ascii_of_string sfx.
Proof.
  intros out. subst out. rewrite generate_output_filename_chars.
  set (path := list_ascii_of_string p) in *.
  pose proof (stem_no_slash path) as Hst. pose proof (suffix_no_slash path) as Hex.
  revert Hext Hst Hex. unfold PurePath.stem, PurePath.suffix.
  destruct (PurePath.suffix_index (PurePath.name path)) as [i|] eqn:Ei;
    [|intros H; contradiction].
  intros _ Hst Hex.
  destruct (suffix_index_Some _ _ Ei) as (Hi & d & rest & Hd & Hr & Hlen).
  set (st := take i (PurePath.name path)) in *. rewrite Hd in *.
  set (s := list_ascii_of_string sfx) in *.
  assert (Hslash : "/"%char ∉ st ++ s ++ "."%char :: d :: rest).
  { rewrite !elem_of_app. intros [H|[H|H]]; auto. }
  assert (Hname : PurePath.name (st ++ s ++ "."%char :: d :: rest)
                  = st ++ s ++ "."%char :: d :: rest).
  { apply name_of_file_name. split; [exact Hslash|].
    split; intros H; apply (f_equal length) in H; rewrite !length_app in H;
      simpl in H; lia. }
  assert (Hidx : PurePath.suffix_index (st ++ s ++ "."%char :: d :: rest)
                 = Some (length (st ++ s))).
  { unfold PurePath.suffix_index. rewrite app_assoc.
    rewrite rfind_dot_app by exact Hr.
    rewrite !length_app. simpl.
    replace (Nat.ltb 0 (length st + length s)) with true
      by (symmetry; apply Nat.ltb_lt; lia).
    replace (Nat.ltb (length st + length s)
               (length st + length s + S (S (length rest)) - 1)) with true
      by (symmetry; apply Nat.ltb_lt; lia).
    reflexivity. }
  split; [exact Hslash|]. split; [exact Hname|].
  rewrite Hname, Hidx. split.
  - rewrite app_assoc. rewrite drop_app_length. reflexivity.
  - rewrite app_assoc. rewrite take_app_length. reflexivity.
Qed.

Lemma output_filename_keeps_extension_witness :
  generate_output_filename "/home/me/payroll.v2.xlsx" default_suffix
  = "payroll.v2_processed.xlsx"
  /\ PurePath.suffix (list_ascii_of_string
                        (generate_output_filename "/home/me/payroll.v2.xlsx"
                           default_suffix))
     = PurePath.suffix (list_ascii_of_string "/home/me/payroll.v2.xlsx").
Proof.
  destruct (output_filename_keeps_extension "/home/me/payroll.v2.xlsx" default_suffix)
    as (_ & _ & H & _).
  - vm_compute. discriminate.
  - apply (bool_decide_unpack _). vm_compute. exact I.
  - split; [reflexivity|exact H].
Defined.

(** ** The key as the words of the name *)



















(** ** Numbers in the hours column *)












Lemma string_of_chars_app (a b : list ascii) :
  string_of_list_ascii (a ++ b)
  = (string_of_list_ascii a ++ string_of_list_ascii b)%string.
Proof. induction a as [|c a IH]; simpl; [reflexivity|]. rewrite IH. reflexivity. Qed.

Lemma keep_digits_and_dots_app (s1 s2 : string) :
  keep_digits_and_dots (s1 ++ s2)%string
  = (keep_digits_and_dots s1 ++ keep_digits_and_dots s2)%string.
Proof.
  unfold keep_digits_and_dots.
  rewrite chars_app, List.filter_app, string_of_chars_app. reflexivity.
Qed.

(** Cleaning the hours takes out every character that is neither a
    digit nor a dot before the text is parsed, wherever it stands: a sign,
    a unit or the marker of an exponent does not reach the number. *)
Theorem clean_hours_ignores_other_characters (s1 s2 : string) (c : ascii)
    (Hdigit : is_digit c = false) (Hdot : c <> "."%char) :
  clean_hours (Some (s1 ++ String c s2)%string) = clean_hours (Some (s1 ++ s2)%string)
  /\ keep_digits_and_dots (s1 ++ String c s2)%string
     = keep_digits_and_dots (s1 ++ s2)%string.
Proof.
  assert (E : keep_digits_and_dots (s1 ++ String c s2)%string
              = keep_digits_and_dots (s1 ++ s2)%string).
  { rewrite !keep_digits_and_dots_app. f_equal.
    unfold keep_digits_and_dots. cbn [list_ascii_of_string List.filter].
    rewrite Hdigit, bool_decide_eq_false_2 by exact Hdot. reflexivity. }
  split; [|exact E].
  unfold clean_hours, to_numeric. cbn [fmap option_fmap option_map mbind option_bind].
  rewrite E. reflexivity.
Qed.

Lemma clean_hours_ignores_other_characters_witness :
  clean_hours (Some ("" ++ String "-" "5.5")%string) = clean_hours (Some ("" ++ "5.5")%string)
  /\ clean_hours (Some ("1" ++ String "e" "3")%string) = Some (13 # 1).
Proof.
  destruct (clean_hours_ignores_other_characters "" "5.5" "-"%char) as [H _].
  - reflexivity.
  - discriminate.
  - split; [exact H|reflexivity].
Defined.

(** ** The order of the records *)

Lemma filter_positions {A} (key : A -> nat) (P : A -> bool) (L : list A) off :
  (forall n x, L !! n = Some x -> key x = (off + n)%nat) ->
  (forall a xa, List.filter P L !! a = Some xa ->
                off <= key xa < off + length L)
  /\ (forall a b xa xb, a < b ->
        List.filter P L !! a = Some xa -> List.filter P L !! b = Some xb ->
        key xa < key xb).
Proof.
  revert off. induction L as [|x L IH]; intros off Hkey.
  - split; [intros a xa H|intros a b xa xb _ H]; cbn [List.filter] in H;
      rewrite lookup_nil in H; discriminate.
  - assert (Hx : key x = off) by (rewrite (Hkey 0%nat x eq_refl); lia).
    destruct (IH (S off)) as [IHb IHs].
    { intros n y Hn. rewrite (Hkey (S n) y Hn). lia. }
    cbn [List.filter length]. destruct (P x).
    + split.
      * intros [|a] xa Ha.
        -- injection Ha as <-. lia.
        -- specialize (IHb a xa Ha). lia.
      * intros [|a] [|b] xa xb Hab Ha Hb; try lia.
        -- injection Ha as <-. specialize (IHb b xb Hb). lia.
        -- apply (IHs a b xa xb); [lia|assumption|assumption].
    + split.
      * intros a xa Ha. specialize (IHb a xa Ha). lia.
      * exact IHs.
Qed.

Lemma cleaned_frame_positions i j lines n r :
  convert_hours (select_columns i j lines) !! n = Some r -> index r = n.
Proof.
  unfold convert_hours, select_columns. rewrite list_lookup_fmap, list_lookup_imap.
  destruct (lines !! n); [|discriminate]. simpl. intros [= <-]. reflexivity.
Qed.

Lemma length_cleaned_frame i j lines :
  length (convert_hours (select_columns i j lines)) = length lines.
Proof.
  unfold convert_hours, select_columns. rewrite length_map, length_imap. reflexivity.
Qed.

(** The records come in the order of the file: their index labels
    increase strictly, each is the position of a data line before the
    cutoff, and the count the loader logs last is the number of records it
    returns. *)
Theorem loader_keeps_file_order csv_path m full i j
    (Hfile : csv_files (files m) !! csv_path = Some (inr full))
    (Hname : index_of "Name" (columns full) = Some i)
    (Hhours : index_of "Work Hours" (columns full) = Some j) :
  exists df lg,
    read_pos_csv csv_path m
    = (Return (Some df),
       {| files := files m;
          log := log m ++ lg ++ [(INFO, ReadRows (length df) csv_path)] |})
    /\ (forall a b ra rb,
          a < b -> df !! a = Some ra -> df !! b = Some rb -> index ra < index rb)
    /\ (forall a ra, df !! a = Some ra -> index ra < length (usable_rows full))
    /\ length df <= length (usable_rows full).
Proof.
  set (sel := convert_hours (select_columns i j (usable_rows full))).
  destruct (filter_positions index
              (fun r => notna (Name r) && notna (Work_Hours r)) sel 0)
    as [Hb Hs].
  { intros n x Hn. apply cleaned_frame_positions in Hn. exact Hn. }
  pose proof (read_pos_csv_readable _ _ _ _ _ Hfile Hname Hhours) as Hrun.
  unfold loader_log in Hrun. cbv zeta in Hrun. fold sel in Hrun.
  rewrite (app_assoc _ _ [_]) in Hrun.
  eexists (dropna sel), _. split.
  - exact Hrun.
  - split; [exact Hs|]. split.
    + intros a ra Ha. specialize (Hb a ra Ha).
      unfold sel in Hb. rewrite length_cleaned_frame in Hb. lia.
    + unfold dropna. rewrite <- (length_cleaned_frame i j (usable_rows full)).
      fold sel. clear. induction sel as [|x l IH]; simpl; [lia|].
      destruct (notna (Name x) && notna (Work_Hours x)); simpl; lia.
Qed.

Lemma loader_keeps_file_order_witness :
  exists df lg,
    read_pos_csv "pos.csv" {| files := sample_world; log := [] |}
    = (Return (Some df),
       {| files := sample_world;
          log := [] ++ lg ++ [(INFO, ReadRows (length df) "pos.csv")] |})
    /\ (forall a b ra rb,
          a < b -> df !! a = Some ra -> df !! b = Some rb -> index ra < index rb).
Proof.
  destruct (loader_keeps_file_order "pos.csv" {| files := sample_world; log := [] |}
              sample_csv 0 2) as (df & lg & Hrun & Hord & _).
  - reflexivity.
  - reflexivity.
  - reflexivity.
  - exists df, lg. split; [exact Hrun|exact Hord].
Defined.

(** ** The warning about failed conversions *)

Lemma select_columns_pairs i j lines :
  select_columns i j lines
  = map (fun p : nat * list string =>
           (p.1, (na_filter (p.2 !! i), na_filter (p.2 !! j))))
        (imap pair lines).
Proof.
  unfold select_columns. symmetry.
  etransitivity; [apply (fmap_imap pair)|]. apply imap_ext. reflexivity.
Qed.

Lemma na_filter_not_empty field s : na_filter field = Some s -> s <> "".
Proof.
  unfold na_filter. destruct field as [t|]; [|discriminate].
  destruct (bool_decide (t ∈ na_values)) eqn:Et; [discriminate|].
  intros [= ->] ->. apply bool_decide_eq_false in Et. apply Et.
  unfold na_values. apply list_elem_of_here.
Qed.

Lemma failed_rows_bad_hours i j lines :
  let failed_rows :=
    List.filter (fun r : nat * (option string * option string) =>
                   failed r.2.2 (clean_hours r.2.2))
                (select_columns i j lines) in
  map fst failed_rows = map fst (bad_hours j lines)
  /\ omap (fun r : nat * (option string * option string) => r.2.2) failed_rows
     = map snd (bad_hours j lines).
Proof.
  rewrite select_columns_pairs. unfold bad_hours.
  induction (imap pair lines) as [|[k row] L [IH1 IH2]]; [split; reflexivity|].
  cbn [map List.filter omap list_omap fst snd].
  destruct (na_filter (row !! j)) as [s|] eqn:En.
  - pose proof (na_filter_not_empty _ _ En) as Hs.
    destruct (clean_hours (Some s)) as [q|] eqn:Ec.
    + cbn [failed]. exact (conj IH1 IH2).
    + cbn [failed]. destruct (String.eqb_spec s ""); [contradiction|].
      cbn [negb map omap list_omap fst snd]. cbv zeta in IH1, IH2.
      rewrite IH1, IH2. split; reflexivity.
  - change (clean_hours None) with (@None Q). cbn [failed].
    exact (conj IH1 IH2).
Qed.

Lemma elem_of_bad_hours j lines n s :
  (n, s) ∈ bad_hours j lines
  <-> exists line, lines !! n = Some line
                   /\ na_filter (line !! j) = Some s
                   /\ clean_hours (Some s) = None.
Proof.
  unfold bad_hours. rewrite list_elem_of_omap. split.
  - intros ([k line] & Hin & Hp). apply list_elem_of_lookup in Hin.
    destruct Hin as [a Ha]. rewrite list_lookup_imap in Ha.
    destruct (lines !! a) as [l|] eqn:El; [|discriminate].
    simpl in Ha. injection Ha as <- <-. simpl in Hp.
    destruct (na_filter (l !! j)) as [t|] eqn:En; [|discriminate].
    destruct (clean_hours (Some t)) eqn:Ec; [discriminate|].
    injection Hp as <- <-. exists l. auto.
  - intros (line & Hl & Hn & Hc). exists (n, line). split.
    + apply list_elem_of_lookup. exists n. rewrite list_lookup_imap, Hl. reflexivity.
    + simpl. rewrite Hn, Hc. reflexivity.
Qed.

(** The warning about hours that could not be converted is logged
    exactly when some line before the cutoff has an hours text that is
    there and holds no number; it lists those lines, each index with its
    text, in file order.  Lines dropped for a missing name or for missing
    hours are not listed. *)
Theorem convert_failed_report csv_path m full i j
    (Hfile : csv_files (files m) !! csv_path = Some (inr full))
    (Hname : index_of "Name" (columns full) = Some i)
    (Hhours : index_of "Work Hours" (columns full) = Some j) :
  exists df lg,
    read_pos_csv csv_path m
    = (Return (Some df), {| files := files m; log := log m ++ lg |})
    /\ (forall idxs origs,
          (WARNING, ConvertFailed csv_path idxs origs) ∈ lg
          <-> bad_hours j (usable_rows full) <> []
              /\ idxs = map fst (bad_hours j (usable_rows full))
              /\ origs = map snd (bad_hours j (usable_rows full)))
    /\ (forall n s,
          (n, s) ∈ bad_hours j (usable_rows full)
          <-> exists line, usable_rows full !! n = Some line
                           /\ na_filter (line !! j) = Some s
                           /\ clean_hours (Some s) = None).
Proof.
  eexists _, _. split; [apply read_pos_csv_readable; eassumption|].
  split; [|intros n s; apply elem_of_bad_hours].
  intros idxs origs. unfold loader_log.
  destruct (failed_rows_bad_hours i j (usable_rows full)) as [E1 E2].
  cbv zeta in E1, E2.
  set (fr := List.filter _ (select_columns i j (usable_rows full))) in *.
  set (bad := bad_hours j (usable_rows full)) in *.
  rewrite !elem_of_app. split.
  - intros [H|[H|H]].
    + destruct (cutoff_row full); [apply elem_of_nil in H; contradiction|].
      apply list_elem_of_singleton in H. discriminate H.
    + destruct fr as [|x fr'] eqn:Efr; [apply elem_of_nil in H; contradiction|].
      apply list_elem_of_singleton in H. injection H as -> ->.
      split; [|split; assumption].
      intros Ebad. rewrite Ebad in E1. discriminate E1.
    + apply list_elem_of_singleton in H. discriminate H.
  - intros (Hne & -> & ->). right. left.
    destruct fr as [|x fr'] eqn:Efr.
    + exfalso. apply Hne. destruct bad; [reflexivity|discriminate E1].
    + apply list_elem_of_singleton. rewrite E1, E2. reflexivity.
Qed.

Lemma convert_failed_report_witness :
  exists df lg,
    read_pos_csv "pos.csv" {| files := sample_world; log := [] |}
    = (Return (Some df), {| files := sample_world; log := [] ++ lg |})
    /\ forall idxs origs,
         (WARNING, ConvertFailed "pos.csv" idxs origs) ∈ lg
         <-> bad_hours 2 (usable_rows sample_csv) <> []
             /\ idxs = map fst (bad_hours 2 (usable_rows sample_csv))
             /\ origs = map snd (bad_hours 2 (usable_rows sample_csv)).
Proof.
  destruct (convert_failed_report "pos.csv" {| files := sample_world; log := [] |}
              sample_csv 0 2) as (df & lg & Hrun & Hrep & _).
  - reflexivity.
  - reflexivity.
  - reflexivity.
  - exists df, lg. split; [exact Hrun|exact Hrep].
Defined.

(** ** Files the loader gives up on *)

Lemma index_of_lt name names i : index_of name names = Some i -> i < length names.
Proof.
  intros H. apply index_of_lookup in H. apply lookup_lt_Some in H. exact H.
Qed.

Lemma scan_cutoff_narrow width idx row rest :
  width < 2 ->
  scan_cutoff width idx (row :: rest)
  = Raise (Exn IndexError "single positional indexer is out-of-bounds").
Proof.
  intros Hw. cbn [scan_cutoff]. unfold iloc.
  destruct (Nat.ltb_spec 1 width) as [Hlt|_]; [lia|reflexivity].
Qed.

(** A file whose header lacks the column [Name] or the column [Work
    Hours] gives no frame: [read_pos_csv] returns [None] and logs the
    error of the read, an index error when the header has fewer than two
    columns and there is a data line, and otherwise the error of the
    second read about the columns it was asked for. *)
Theorem loader_header_errors csv_path m full
    (Hfile : csv_files (files m) !! csv_path = Some (inr full))
    (Hmissing : index_of "Name" (columns full) = None
                \/ index_of "Work Hours" (columns full) = None) :
  exists e lg,
    read_pos_csv csv_path m
    = (Return None,
       {| files := files m;
          log := log m ++ lg ++ [(ERROR, CsvError csv_path e)] |})
    /\ (lg = [] \/ lg = [(WARNING, CutoffNotFound csv_path)])
    /\ (length (columns full) < 2 /\ rows full <> [] -> exn_kind e = IndexError)
    /\ (~ (length (columns full) < 2 /\ rows full <> []) -> exn_kind e = ValueError).
Proof.
  unfold read_pos_csv, try_except, read_pos_csv_body.
  unfold mbind, M_bind, pd_read_csv_usecols, mbind, M_bind, pd_read_csv, lift, raise.
  rewrite Hfile. destruct m as [w lg0]. simpl in Hfile |- *.
  destruct (decide (length (columns full) < 2)) as [Hw|Hw].
  - destruct (rows full) as [|row rest] eqn:Er.
    + simpl. rewrite Hfile.
      assert (E : match index_of "Name" (columns full),
                        index_of "Work Hours" (columns full) with
                  | Some i, Some j => true
                  | _, _ => false
                  end = false).
      { destruct Hmissing as [-> | ->]; [reflexivity|].
        destruct (index_of "Name" (columns full)); reflexivity. }
      destruct (index_of "Name" (columns full)), (index_of "Work Hours" (columns full));
        try discriminate E; simpl;
        (eexists _, [(WARNING, CutoffNotFound csv_path)];
         split; [rewrite <- app_assoc; reflexivity|];
         split; [right; reflexivity|];
         split; [intros [_ H]; contradiction|intros _; reflexivity]).
    + rewrite scan_cutoff_narrow by exact Hw. simpl.
      eexists _, []. split; [reflexivity|]. split; [left; reflexivity|].
      split; [intros _; reflexivity|]. intros H. exfalso. apply H.
      split; [exact Hw|discriminate].
  - rewrite scan_cutoff_spec by lia.
    assert (E : match index_of "Name" (columns full),
                      index_of "Work Hours" (columns full) with
                | Some i, Some j => true
                | _, _ => false
                end = false).
    { destruct Hmissing as [-> | ->]; [reflexivity|].
      destruct (index_of "Name" (columns full)); reflexivity. }
    destruct (list_find is_role_line (rows full)) as [[k line]|]; simpl; rewrite Hfile;
      destruct (index_of "Name" (columns full)), (index_of "Work Hours" (columns full));
      try discriminate E; simpl.
    all: try (eexists _, []; split; [reflexivity|]; split; [left; reflexivity|];
              split; [intros [H _]; contradiction|intros _; reflexivity]).
    all: eexists _, [(WARNING, CutoffNotFound csv_path)];
      (split; [rewrite <- app_assoc; reflexivity|]); (split; [right; reflexivity|]);
      (split; [intros [H _]; contradiction|intros _; reflexivity]).
Qed.

Lemma loader_header_errors_witness :
  exists e lg,
    read_pos_csv "pos.csv" {| files := headless_world; log := [] |}
    = (Return None,
       {| files := headless_world;
          log := [] ++ lg ++ [(ERROR, CsvError "pos.csv" e)] |}).
Proof.
  destruct (loader_header_errors "pos.csv" {| files := headless_world; log := [] |}
              headless_csv) as (e & lg & Hrun & _).
  - reflexivity.
  - right. reflexivity.
  - exists e, lg. exact Hrun.
Defined.

(** ** Runs that reach the save *)

Lemma has_b_value_last ws : has_b_value ws <-> exists k, last_b_row ws k.
Proof.
  split.
  - intros (r & Hr & Ht).
    assert (Hin : In r (b_rows ws)) by (apply elem_of_b_rows; auto).
    destruct (py_max_seq (b_rows ws)) as [k|e] eqn:E.
    + exists k. apply py_max_b_rows. exact E.
    + unfold py_max_seq in E. destruct (b_rows ws); [destruct Hin|discriminate].
  - intros (k & H2 & Ht & _). exists k. auto.
Qed.

Lemma last_b_row_not_nil ws k : last_b_row ws k -> b_rows ws <> [].
Proof.
  intros H E. apply py_max_b_rows in H. rewrite E in H. discriminate H.
Qed.

(** A run on a sheet with a B value ends normally, on a sheet with a B
    value. *)
Lemma run_keeps_anchor reg_col ot_col name_to_row st data entries o :
  reg_col <> ot_col -> reg_col <> "B" -> ot_col <> "B" ->
  rows_run reg_col ot_col name_to_row st data entries o ->
  (exists k, last_b_row (sheet st) k) ->
  exists st', o = Return st' /\ exists k, last_b_row (sheet st') k.
Proof.
  intros Hne HrB HoB Hrun.
  induction Hrun as [st|st row rest e Hstep|st row rest st1 c entries o Hstep Hrun IH];
    intros [k Hk].
  - exists st. split; [reflexivity|]. exists k. exact Hk.
  - exfalso. inversion Hstep; subst.
    eapply last_b_row_not_nil; eassumption.
  - apply IH.
    destruct (row_step_column_B _ _ _ _ _ _ _ Hne HrB HoB Hstep)
      as [[_ HB]|(k2 & _ & _ & Hlast1 & _)].
    + exists k. eapply last_b_row_ext; [|exact Hk]. exact HB.
    + exists (k2 + 1)%nat. exact Hlast1.
Qed.

Section Success.

Variable num_str : Q -> string.

(** The body of [process_excel] once the template is loaded and the week
    is read, from the outcome of the loop. *)
Lemma process_excel_after_loop template_path data week output_path m ws0
    reg_col ot_col st m1 :
  data <> [] ->
  workbooks (files m) !! template_path = Some (inr ws0) ->
  week_columns week = Some (reg_col, ot_col) ->
  merge_rows reg_col ot_col (build_name_to_row num_str ws0)
    {| sheet := ws0; processed := ∅ |} data m = (Return st, m1) ->
  process_excel num_str template_path (Some data) week output_path m
  = match save_fault (files m) output_path with
    | None =>
        (Return (true, "Saved to " ++ output_path)%string,
         {| files := saved (files m) output_path (sheet st); log := log m1 |})
    | Some e => on_error template_path e m1
    end.
Proof.
  intros Hne Hload Hweek Hrows.
  pose proof (merge_rows_files _ _ _ _ _ _ _ _ Hrows) as Hfiles.
  rewrite process_excel_nonempty by exact Hne.
  unfold try_except, process_excel_body, mbind, M_bind.
  rewrite (load_workbook_found _ _ _ Hload), Hweek. simpl. rewrite Hrows.
  unfold save. rewrite Hfiles.
  destruct (save_fault (files m) output_path); reflexivity.
Qed.

End Success.



(** When the save raises, the result is a failure and no file is
    written, although the template loaded and every record was merged in
    memory.  A [FileNotFoundError] of the save (the folder of the output
    path is not there) goes to the handler of the missing template: the
    message is then [Template not found: <template path>]. *)
Theorem save_failure_reported (num_str : Q -> string)
    (template_path week output_path : string) (m : machine) (ws0 : worksheet)
    (reg_col ot_col : string) (data : dataframe) (e : exn)
    (Hload : workbooks (files m) !! template_path = Some (inr ws0))
    (Hweek : week_columns week = Some (reg_col, ot_col))
    (Hdata : data <> [])
    (Hanchor : has_b_value ws0)
    (Hsave : save_fault (files m) output_path = Some e) :
  exists entries,
    length entries = length data
    /\ process_excel num_str template_path (Some data) week output_path m
       = (Return (false,
                  if is_FileNotFoundError e
                  then ("Template not found: " ++ template_path)%string
                  else ("Error processing: " ++ exn_msg e)%string),
          {| files := files m;
             log := log m ++ entries
                    ++ [(ERROR, if is_FileNotFoundError e
                                then TemplateNotFound template_path
                                else ErrorMsg e)] |}).
Proof.
  pose proof (week_columns_distinct _ _ _ Hweek) as (Hne & HrB & HoB).
  destruct (merge_rows_run reg_col ot_col (build_name_to_row num_str ws0)
              {| sheet := ws0; processed := ∅ |} data m)
    as (entries & o & Hrun & Heq).
  destruct (run_keeps_anchor _ _ _ _ _ _ _ Hne HrB HoB Hrun) as (st & -> & Hk).
  { apply has_b_value_last. exact Hanchor. }
  exists entries. split.
  - apply (proj2 (run_length _ _ _ _ _ _ _ Hrun) st). reflexivity.
  - rewrite (process_excel_after_loop num_str _ _ _ _ _ _ _ _ _ _ Hdata Hload Hweek Heq).
    rewrite Hsave. destruct (on_error_result template_path e (add_logs m entries))
      as (msg & -> & ->).
    unfold add_log, add_logs. simpl. rewrite <- app_assoc. reflexivity.
Qed.

Lemma save_failure_reported_witness :
  exists entries,
    process_excel (fun _ => "") "template.xlsx"
      (Some [record 0 "Jane Doe" 45]) "Week 1" "gone/out.xlsx"
      {| files := no_folder_world; log := [] |}
    = (Return (false, "Template not found: template.xlsx"),
       {| files := no_folder_world;
          log := [] ++ entries ++ [(ERROR, TemplateNotFound "template.xlsx")] |}).
Proof.
  destruct (save_failure_reported (fun _ => "") "template.xlsx" "Week 1" "gone/out.xlsx"
              {| files := no_folder_world; log := [] |} small_template "S" "T"
              [record 0 "Jane Doe" 45] (file_not_found "gone/out.xlsx"))
    as (entries & _ & Hrun).
  - reflexivity.
  - reflexivity.
  - discriminate.
  - exists 2%nat. split; [lia|reflexivity].
  - reflexivity.
  - exists entries. exact Hrun.
Defined.

(** ** What a run touches *)

Lemma merge_rows_log reg_col ot_col name_to_row st data m o m' :
  merge_rows reg_col ot_col name_to_row st data m = (o, m') ->
  exists entries, m' = add_logs m entries.
Proof.
  destruct (merge_rows_run reg_col ot_col name_to_row st data m)
    as (entries & o2 & _ & Heq).
  rewrite Heq. intros [= _ <-]. exists entries. reflexivity.
Qed.

(** Either the files are as before and the result is not a success, or
    one workbook was saved at the output path. *)
Lemma process_excel_cases (num_str : Q -> string) (template_path : string)
    (csv_data : option dataframe) (week output_path : string) (m : machine) :
  let r := process_excel num_str template_path csv_data week output_path m in
  (files r.2 = files m /\ (exists entries, log r.2 = log m ++ entries)
   /\ forall msg, r.1 <> Return (true, msg))
  \/ (exists ws, files r.2 = saved (files m) output_path ws
                 /\ (exists entries, log r.2 = log m ++ entries)
                 /\ save_fault (files m) output_path = None).
Proof.
  intros r. subst r. destruct csv_data as [[|row rest]|].
  - left. split; [reflexivity|]. split; [exists []; symmetry; apply app_nil_r|].
    intros msg. discriminate.
  - rewrite process_excel_nonempty by discriminate.
    unfold try_except, process_excel_body, mbind, M_bind, load_workbook.
    destruct (workbooks (files m) !! template_path) as [[e|ws]|].
    + left. destruct (on_error_result template_path e m) as (msg & -> & _).
      split; [reflexivity|]. split; [eexists; reflexivity|].
      intros msg2. discriminate.
    + destruct (week_columns week) as [[reg_col ot_col]|].
      * destruct (merge_rows _ _ _ _ _ _) as [[st|e] m2] eqn:Erows;
          pose proof (merge_rows_files _ _ _ _ _ _ _ _ Erows) as Hfiles;
          destruct (merge_rows_log _ _ _ _ _ _ _ _ Erows) as [entries ->].
        -- unfold save. simpl.
           destruct (save_fault (files m) output_path) as [e|] eqn:Es.
           ++ left. destruct (on_error_result template_path e (add_logs m entries))
                as (msg & -> & _).
              split; [reflexivity|]. split.
              ** eexists. simpl. rewrite <- app_assoc. reflexivity.
              ** intros msg2. discriminate.
           ++ right. exists (sheet st). simpl. split; [reflexivity|].
              split; [exists entries; reflexivity|reflexivity].
        -- left. destruct (on_error_result template_path e (add_logs m entries))
             as (msg & -> & _).
           split; [reflexivity|]. split.
           ++ eexists. simpl. rewrite <- app_assoc. reflexivity.
           ++ intros msg2. discriminate.
      * left. simpl. split; [reflexivity|].
        split; [exists []; symmetry; apply app_nil_r|]. intros msg. discriminate.
    + left. destruct (on_error_result template_path (file_not_found template_path) m)
        as (msg & -> & _).
      split; [reflexivity|]. split; [eexists; reflexivity|].
      intros msg2. discriminate.
  - left. split; [reflexivity|]. split; [exists []; symmetry; apply app_nil_r|].
    intros msg. discriminate.
Qed.

(** Whatever its arguments and however it ends, [process_excel] leaves
    the CSV files alone, changes no workbook but the one at the output
    path, and only adds to the log; after a success there is a workbook at
    the output path.  The template is changed only when the output path is
    the path of the template. *)
Theorem process_excel_writes_only_output (num_str : Q -> string)
    (template_path : string) (csv_data : option dataframe)
    (week output_path : string) (m : machine) :
  let r := process_excel num_str template_path csv_data week output_path m in
  csv_files (files r.2) = csv_files (files m)
  /\ save_fault (files r.2) = save_fault (files m)
  /\ (forall p, p <> output_path ->
        workbooks (files r.2) !! p = workbooks (files m) !! p)
  /\ (template_path <> output_path ->
      workbooks (files r.2) !! template_path = workbooks (files m) !! template_path)
  /\ (exists entries, log r.2 = log m ++ entries)
  /\ (forall msg, r.1 = Return (true, msg) ->
        exists ws, workbooks (files r.2) !! output_path = Some (inr ws)
                   /\ save_fault (files m) output_path = None).
Proof.
  intros r.
  destruct (process_excel_cases num_str template_path csv_data week output_path m)
    as [(Hf & Hl & Hno)|(ws & Hf & Hl & Hs)]; fold r in Hf, Hl |- *.
  - rewrite Hf. split; [reflexivity|]. split; [reflexivity|].
    split; [reflexivity|]. split; [reflexivity|]. split; [exact Hl|].
    intros msg Hr. destruct (Hno msg Hr).
  - rewrite Hf. unfold saved. simpl. split; [reflexivity|]. split; [reflexivity|].
    split; [intros p Hp; apply lookup_insert_ne; congruence|].
    split; [intros Hp; apply lookup_insert_ne; congruence|].
    split; [exact Hl|]. intros msg _. exists ws.
    split; [apply lookup_insert_eq|exact Hs].
Qed.

(** ** What the loop does to the rows of the sheet *)

(** A step either leaves every column but the two of the week as it is,
    or inserts one row right below the last B row. *)
Lemma step_frame reg_col ot_col name_to_row st row st1 c :
  reg_col <> ot_col -> reg_col <> "B" -> ot_col <> "B" ->
  row_step reg_col ot_col name_to_row st row (Return (st1, c)) ->
  (added_rows [c] = []
   /\ forall col r, col <> reg_col -> col <> ot_col ->
        get_cell (sheet st1) col r = get_cell (sheet st) col r)
  \/ (exists k,
        added_rows [c] = [(raw_name_of row, k + 1)%nat]
        /\ last_b_row (sheet st) k
        /\ last_b_row (sheet st1) (k + 1)
        /\ (forall col r, r <= k ->
              get_cell (sheet st1) col r = get_cell (sheet st) col r)
        /\ (forall col r, k < r ->
              get_cell (sheet st1) col (r + 1) = get_cell (sheet st) col r)).
Proof.
  intros Hne HrB HoB Hstep.
  inversion Hstep; subst; try (left; split; [reflexivity|intros; reflexivity]).
  - left. split; [reflexivity|]. intros col r Hc1 Hc2. simpl.
    apply write_hours_other. right. split; assumption.
  - right. exists last_b. simpl.
    match goal with
    | H : py_max_seq _ = Return _ |- _ => apply py_max_b_rows in H; rename H into Hlast
    end.
    split; [reflexivity|]. split; [exact Hlast|]. split; [|split].
    + apply last_b_row_after_insert; try assumption.
      eapply truthy_raw_name; eassumption.
    + intros col r Hr. apply insert_employee_above. lia.
    + intros col r Hr. rewrite insert_employee_below by lia.
      f_equal. lia.
Qed.

Lemma run_frame reg_col ot_col name_to_row st data entries o :
  reg_col <> ot_col -> reg_col <> "B" -> ot_col <> "B" ->
  rows_run reg_col ot_col name_to_row st data entries o ->
  forall st', o = Return st' ->
  forall k0, added_rows entries = [] \/ last_b_row (sheet st) k0 ->
    (forall i name r, added_rows entries !! i = Some (name, r) ->
                      r = (k0 + 1 + i)%nat)
    /\ forall col, col <> reg_col -> col <> ot_col ->
         (forall r, r <= k0 ->
            get_cell (sheet st') col r = get_cell (sheet st) col r)
         /\ (forall r, k0 < r ->
               get_cell (sheet st') col (r + length (added_rows entries))
               = get_cell (sheet st) col r).
Proof.
  intros Hne HrB HoB Hrun.
  induction Hrun as [st|st row rest e Hstep|st row rest st1 c entries o Hstep Hrun IH];
    intros st' Ho k0 Hk0.
  - injection Ho as <-. simpl. split.
    + intros i name r H. rewrite lookup_nil in H. discriminate.
    + intros col _ _. split; [reflexivity|]. intros r _. f_equal. lia.
  - discriminate.
  - specialize (IH st' Ho). rewrite added_rows_cons in Hk0 |- *.
    destruct (step_frame _ _ _ _ _ _ _ Hne HrB HoB Hstep)
      as [[Hadd Hsame]|(k & Hadd & Hlast & Hlast1 & Habove & Hbelow)];
      rewrite Hadd in Hk0 |- *.
    + simpl in Hk0 |- *.
      assert (Hk1 : added_rows entries = [] \/ last_b_row (sheet st1) k0).
      { destruct Hk0 as [E|Hl]; [left; exact E|right].
        eapply last_b_row_ext; [|exact Hl].
        intros r. apply Hsame; congruence. }
      destruct (IH k0 Hk1) as [Hpos Hcells]. split; [exact Hpos|].
      intros col Hc1 Hc2. destruct (Hcells col Hc1 Hc2) as [Ha Hb]. split.
      * intros r Hr. rewrite Ha by exact Hr. apply Hsame; assumption.
      * intros r Hr. rewrite Hb by exact Hr. apply Hsame; assumption.
    + destruct Hk0 as [E|Hl]; [discriminate E|].
      assert (k0 = k) by (eapply last_b_row_unique; eassumption). subst k0.
      destruct (IH (k + 1)%nat (or_intror Hlast1)) as [Hpos Hcells]. split.
      * intros [|i] name r Hi.
        -- simpl in Hi. injection Hi as <- <-. lia.
        -- simpl in Hi. rewrite (Hpos i name r Hi). lia.
      * intros col Hc1 Hc2. destruct (Hcells col Hc1 Hc2) as [Ha Hb]. split.
        -- intros r Hr. rewrite Ha by lia. apply Habove. exact Hr.
        -- intros r Hr. simpl.
           replace (r + S (length (added_rows entries)))%nat
             with (r + 1 + length (added_rows entries))%nat by lia.
           rewrite Hb by lia. apply Hbelow. exact Hr.
Qed.

Lemma merge_rows_returns reg_col ot_col name_to_row st data m st' m' :
  merge_rows reg_col ot_col name_to_row st data m = (Return st', m') ->
  exists entries,
    rows_run reg_col ot_col name_to_row st data entries (Return st')
    /\ m' = add_logs m entries.
Proof.
  intros Hrows.
  destruct (merge_rows_run reg_col ot_col name_to_row st data m)
    as (entries & o & Hrun & Heq).
  rewrite Hrows in Heq. injection Heq as <- ->. exists entries. auto.
Qed.

(** A run of the loop that ends normally loses no row and changes,
    outside the two columns of the week, no cell: the rows it adds form
    one block right below the last B row of the sheet it starts from, the
    rows up to that row stay where they are, and the rows below it move
    down by the number of rows added. *)
Theorem merge_keeps_rows (week reg_col ot_col : string)
    (name_to_row : gmap string nat) (st : merge_state) (data : dataframe)
    (m : machine) (st' : merge_state) (m' : machine)
    (Hweek : week_columns week = Some (reg_col, ot_col))
    (Hrun : merge_rows reg_col ot_col name_to_row st data m = (Return st', m')) :
  exists entries k0,
    m' = add_logs m entries
    /\ (added_rows entries <> [] -> last_b_row (sheet st) k0)
    /\ (forall i name r, added_rows entries !! i = Some (name, r) ->
                         r = (k0 + 1 + i)%nat)
    /\ forall col, col <> reg_col -> col <> ot_col ->
         (forall r, r <= k0 ->
            get_cell (sheet st') col r = get_cell (sheet st) col r)
         /\ (forall r, k0 < r ->
               get_cell (sheet st') col (r + length (added_rows entries))
               = get_cell (sheet st) col r).
Proof.
  pose proof (week_columns_distinct _ _ _ Hweek) as (Hne & HrB & HoB).
  destruct (merge_rows_returns _ _ _ _ _ _ _ _ Hrun) as (entries & Hrows & ->).
  pose proof (run_added_rows _ _ _ _ _ _ _ Hne HrB HoB Hrows st' eq_refl)
    as (Hhead & _ & _).
  destruct (added_rows entries) as [|[name i] l] eqn:Eadd.
  - exists entries, 0%nat. split; [reflexivity|]. split; [intros H; contradiction|].
    rewrite Eadd.
    destruct (run_frame _ _ _ _ _ _ _ Hne HrB HoB Hrows st' eq_refl 0%nat)
      as [Hpos Hcells]; [left; exact Eadd|].
    rewrite Eadd in Hpos, Hcells. split; [exact Hpos|exact Hcells].
  - destruct Hhead as (Hi & Hlast & _).
    exists entries, (i - 1)%nat. split; [reflexivity|]. split; [intros _; exact Hlast|].
    rewrite Eadd.
    destruct (run_frame _ _ _ _ _ _ _ Hne HrB HoB Hrows st' eq_refl (i - 1)%nat)
      as [Hpos Hcells]; [right; exact Hlast|].
    rewrite Eadd in Hpos, Hcells. split; [exact Hpos|exact Hcells].
Qed.

Lemma merge_keeps_rows_witness :
  exists entries k0,
    add_log (add_log start (INFO, AddedNew "New Guy" 4)) (DEBUG, Updated "Bob Ray" 3)
    = add_logs start entries
    /\ (added_rows entries <> [] -> last_b_row small_template k0)
    /\ (forall i name r, added_rows entries !! i = Some (name, r) ->
                         r = (k0 + 1 + i)%nat).
Proof.
  destruct (merge_keeps_rows "Week 1" "S" "T"
              (build_name_to_row (fun _ => "") small_template)
              {| sheet := small_template; processed := ∅ |}
              [record 0 "New Guy" 12; record 1 "Bob Ray" 45] start
              {| sheet := write_hours "S" "T" 3 45
                            (insert_employee "S" "T" 4 "New Guy" 12 small_template);
                 processed := ∅ ∪ {[ "new guy" ]} ∪ {[ "bob ray" ]} |}
              (add_log (add_log start (INFO, AddedNew "New Guy" 4))
                 (DEBUG, Updated "Bob Ray" 3)))
    as (entries & k0 & Hlog & Hlast & Hpos & _).
  - reflexivity.
  - vm_compute. reflexivity.
  - exists entries, k0. split; [exact Hlog|]. split; [exact Hlast|exact Hpos].
Defined.

(** ** The number of rows *)

Lemma length_alter_cell f col r ws :
  length (alter_cell f col r ws) = Nat.max (length ws) r.
Proof.
  unfold alter_cell. destruct r as [|i]; [lia|].
  rewrite length_alter, length_app, length_replicate. lia.
Qed.

Lemma length_write_hours reg_col ot_col r hours ws :
  length (write_hours reg_col ot_col r hours ws) = Nat.max (length ws) r.
Proof.
  unfold write_hours, set_value. rewrite !length_alter_cell. lia.
Qed.

Lemma length_insert_rows idx ws :
  1 <= idx <= length ws -> length (insert_rows idx ws) = S (length ws).
Proof.
  intros [H1 H2]. unfold insert_rows.
  destruct (Nat.leb_spec 1 idx) as [_|]; [|lia].
  destruct (Nat.leb_spec idx (length ws)) as [_|]; [|lia].
  simpl. rewrite length_app, length_take. simpl. rewrite length_drop. lia.
Qed.

Lemma insert_rows_beyond idx ws : length ws < idx -> insert_rows idx ws = ws.
Proof.
  intros H. unfold insert_rows.
  destruct (Nat.leb_spec idx (length ws)) as [|_]; [lia|].
  rewrite andb_false_r. reflexivity.
Qed.

Lemma length_insert_employee reg_col ot_col k raw hours ws :
  k <= length ws ->
  length (insert_employee reg_col ot_col (k + 1) raw hours ws) = S (length ws).
Proof.
  intros Hk. unfold insert_employee, set_fill, set_value.
  rewrite length_write_hours, !length_alter_cell.
  destruct (decide (k + 1 <= length ws)) as [Hle|Hgt].
  - rewrite length_insert_rows by lia. lia.
  - rewrite insert_rows_beyond by lia. lia.
Qed.

Lemma last_b_row_length ws k : last_b_row ws k -> k <= length ws.
Proof.
  intros (_ & Ht & _). destruct (decide (k <= length ws)) as [Hle|Hgt]; [exact Hle|].
  rewrite get_cell_beyond in Ht by lia. discriminate.
Qed.

Lemma step_length reg_col ot_col name_to_row st row st1 c :
  (forall key t, name_to_row !! key = Some t -> t <= length (sheet st)) ->
  row_step reg_col ot_col name_to_row st row (Return (st1, c)) ->
  length (sheet st1) = (length (sheet st) + length (added_rows [c]))%nat.
Proof.
  intros Htargets Hstep. inversion Hstep; subst; simpl; try lia.
  - rewrite length_write_hours.
    match goal with
    | H : name_to_row !! _ = Some _ |- _ => apply Htargets in H
    end. lia.
  - match goal with
    | H : py_max_seq _ = Return _ |- _ => apply py_max_b_rows in H; rename H into Hlast
    end.
    rewrite length_insert_employee by (apply last_b_row_length; exact Hlast). lia.
Qed.

Lemma run_row_count reg_col ot_col name_to_row st data entries o :
  rows_run reg_col ot_col name_to_row st data entries o ->
  (forall key t, name_to_row !! key = Some t -> t <= length (sheet st)) ->
  forall st', o = Return st' ->
    length (sheet st') = (length (sheet st) + length (added_rows entries))%nat.
Proof.
  induction 1 as [st|st row rest e Hstep|st row rest st1 c entries o Hstep Hrun IH];
    intros Htargets st' Ho.
  - injection Ho as <-. simpl. lia.
  - discriminate.
  - pose proof (step_length _ _ _ _ _ _ _ Htargets Hstep) as Hlen.
    rewrite (IH ltac:(intros key t Hkt; apply Htargets in Hkt; lia) st' Ho).
    rewrite added_rows_cons, length_app. lia.
Qed.

Lemma lookup_targets_in_sheet num_str ws key t :
  build_name_to_row num_str ws !! key = Some t -> 2 <= t <= length ws.
Proof.
  intros H. apply build_name_to_row_lookup in H. destruct H as ([H2 _] & Ht & _).
  split; [exact H2|].
  destruct (decide (t <= length ws)) as [Hle|Hgt]; [exact Hle|].
  rewrite get_cell_beyond in Ht by lia. discriminate.
Qed.

(** The merge never removes a row and adds one row for each record it
    logs as added: the sheet a run of [process_excel]'s loop ends with has
    as many rows as the template plus the number of added employees. *)
Theorem merge_adds_one_row_each (num_str : Q -> string) (ws0 : worksheet)
    (reg_col ot_col : string) (data : dataframe) (m : machine)
    (st' : merge_state) (m' : machine)
    (Hrun : merge_rows reg_col ot_col (build_name_to_row num_str ws0)
              {| sheet := ws0; processed := ∅ |} data m = (Return st', m')) :
  exists entries,
    m' = add_logs m entries
    /\ length entries = length data
    /\ length (sheet st') = (length ws0 + length (added_rows entries))%nat
    /\ length ws0 <= length (sheet st') <= length ws0 + length data.
Proof.
  destruct (merge_rows_returns _ _ _ _ _ _ _ _ Hrun) as (entries & Hrows & ->).
  exists entries. split; [reflexivity|].
  pose proof (proj2 (run_length _ _ _ _ _ _ _ Hrows) st' eq_refl) as Hlen.
  split; [exact Hlen|].
  assert (Hcount : length (sheet st')
                   = (length ws0 + length (added_rows entries))%nat).
  { apply (run_row_count _ _ _ _ _ _ _ Hrows); [|reflexivity].
    intros key t Hkt. apply lookup_targets_in_sheet in Hkt. simpl. lia. }
  split; [exact Hcount|].
  assert (length (added_rows entries) <= length entries).
  { clear. induction entries as [|[lv msg] l IH]; [simpl; lia|].
    rewrite added_rows_cons, length_app. destruct msg; simpl; lia. }
  lia.
Qed.

Lemma merge_adds_one_row_each_witness :
  exists entries,
    length entries = 2%nat
    /\ length (write_hours "S" "T" 3 45
                 (insert_employee "S" "T" 4 "New Guy" 12 small_template))
       = (length small_template + length (added_rows entries))%nat.
Proof.
  destruct (merge_adds_one_row_each (fun _ => "") small_template "S" "T"
              [record 0 "New Guy" 12; record 1 "Bob Ray" 45] start
              {| sheet := write_hours "S" "T" 3 45
                            (insert_employee "S" "T" 4 "New Guy" 12 small_template);
                 processed := ∅ ∪ {[ "new guy" ]} ∪ {[ "bob ray" ]} |}
              (add_log (add_log start (INFO, AddedNew "New Guy" 4))
                 (DEBUG, Updated "Bob Ray" 3)))
    as (entries & _ & Hlen & Hcount & _).
  - vm_compute. reflexivity.
  - exists entries. split; [exact Hlen|exact Hcount].
Defined.

(** ** Matched rows below inserted rows *)

Lemma week_columns_not_C week reg_col ot_col :
  week_columns week = Some (reg_col, ot_col) -> "C" <> reg_col /\ "C" <> ot_col.
Proof.
  intros H. apply week_columns_cases in H.
  destruct H as [(_ & -> & ->)|(_ & -> & ->)]; split; discriminate.
Qed.

(** The lookup from names to rows is built once, from the template,
    and is not refreshed when rows are inserted.  Once the loop has added
    rows, a record matched to a template row [t] below the last B row of
    the template still has its hours written into row [t], while the row
    of that employee is now further down, at [t] plus the number of rows
    added; the cells of the week in the employee's own row stay as they
    were.  When [t] falls within the added block, the hours land in the
    row of an added employee. *)
Theorem lookup_not_refreshed (num_str : Q -> string) (ws0 : worksheet)
    (week reg_col ot_col : string) (pre : dataframe) (row : frame_row)
    (hours : Q) (st : merge_state) (m m1 : machine) (t k0 : nat)
    (Hweek : week_columns week = Some (reg_col, ot_col))
    (Hpre : merge_rows reg_col ot_col (build_name_to_row num_str ws0)
              {| sheet := ws0; processed := ∅ |} pre m = (Return st, m1))
    (Hadded : length ws0 < length (sheet st))
    (Hk0 : last_b_row ws0 k0)
    (Ht : build_name_to_row num_str ws0 !! key_of row = Some t)
    (Hbelow : k0 < t)
    (Hvalid : valid_row row hours)
    (Hignore : key_of row ∉ ignore_names_set)
    (Hfresh : key_of row ∉ processed st) :
  let n := (length (sheet st) - length ws0)%nat in
  exists st',
    merge_row reg_col ot_col (build_name_to_row num_str ws0) st row m1
    = (Return st', add_log m1 (DEBUG, Updated (raw_name_of row) t))
    /\ value (get_cell (sheet st') reg_col t) = VNum (reg_hours hours)
    /\ value (get_cell (sheet st') ot_col t) = or_blank (ot_hours hours)
    /\ get_cell (sheet st') "C" (t + n) = get_cell ws0 "C" t
    /\ names_row num_str (sheet st') (key_of row) (t + n)
    /\ get_cell (sheet st') reg_col (t + n) = get_cell (sheet st) reg_col (t + n)
    /\ get_cell (sheet st') ot_col (t + n) = get_cell (sheet st) ot_col (t + n)
    /\ (t <= k0 + n ->
        exists name,
          get_cell (sheet st') "B" t = Cell (VStr name) (Some red_fill)).
Proof.
  intros n.
  pose proof (week_columns_distinct _ _ _ Hweek) as (Hne & HrB & HoB).
  pose proof (week_columns_not_C _ _ _ Hweek) as (HCr & HCo).
  destruct (merge_rows_returns _ _ _ _ _ _ _ _ Hpre) as (entries & Hrows & ->).
  assert (Hn : n = length (added_rows entries)).
  { subst n. rewrite (run_row_count _ _ _ _ _ _ _ Hrows) with (st' := st);
      [simpl; lia| |reflexivity].
    intros key t2 Hkt. apply lookup_targets_in_sheet in Hkt. simpl. lia. }
  destruct (run_frame _ _ _ _ _ _ _ Hne HrB HoB Hrows st eq_refl k0 (or_intror Hk0))
    as [Hpos Hcells].
  pose proof (run_added_rows _ _ _ _ _ _ _ Hne HrB HoB Hrows st eq_refl)
    as (_ & _ & Hnames).
  pose proof (build_name_to_row_lookup _ _ _ _ Ht) as ([Ht2 _] & Htruthy & Hkey).
  assert (Ht0 : t <> 0%nat) by lia.
  eexists. split.
  { apply (merge_row_update _ _ _ _ _ _ hours t); assumption. }
  simpl.
  assert (HC : get_cell (write_hours reg_col ot_col t hours (sheet st)) "C" (t + n)
               = get_cell ws0 "C" t).
  { rewrite write_hours_other by (right; split; assumption).
    rewrite Hn. apply (Hcells "C"); [assumption|assumption|exact Hbelow]. }
  split; [rewrite write_hours_reg by assumption; reflexivity|].
  split; [rewrite write_hours_ot by assumption; reflexivity|].
  split; [exact HC|].
  split; [unfold names_row; rewrite HC; split; assumption|].
  split; [apply write_hours_other; left; simpl in Hadded; lia|].
  split; [apply write_hours_other; left; simpl in Hadded; lia|].
  intros Hin.
  assert (Hi : (t - k0 - 1 < length (added_rows entries))%nat) by lia.
  destruct (lookup_lt_is_Some_2 _ _ Hi) as [[name r] Hlook].
  pose proof (Hpos _ _ _ Hlook) as Hr.
  assert (Er : r = t) by lia. clear Hr. subst r.
  exists name. rewrite write_hours_other by (right; split; congruence).
  rewrite Forall_forall in Hnames.
  apply (Hnames (name, t)). apply list_elem_of_lookup. eexists. exact Hlook.
Qed.

Lemma lookup_not_refreshed_witness :
  exists st',
    merge_row "S" "T" (build_name_to_row (fun _ => "") trailing_template)
      {| sheet := insert_employee "S" "T" 3 "New Guy" 12 trailing_template;
         processed := ∅ ∪ {[ "new guy" ]} |}
      (record 1 "Bob Ray" 45)
      (add_log {| files := trailing_world; log := [] |} (INFO, AddedNew "New Guy" 3))
    = (Return st',
       add_log (add_log {| files := trailing_world; log := [] |}
                  (INFO, AddedNew "New Guy" 3))
         (DEBUG, Updated "Bob Ray" 3))
    /\ value (get_cell (sheet st') "S" 3) = VNum (reg_hours 45)
    /\ get_cell (sheet st') "C" (3 + 1) = get_cell trailing_template "C" 3
    /\ exists name, get_cell (sheet st') "B" 3 = Cell (VStr name) (Some red_fill).
Proof.
  destruct (lookup_not_refreshed (fun _ => "") trailing_template "Week 1" "S" "T"
              [record 0 "New Guy" 12] (record 1 "Bob Ray" 45) 45
              {| sheet := insert_employee "S" "T" 3 "New Guy" 12 trailing_template;
                 processed := ∅ ∪ {[ "new guy" ]} |}
              {| files := trailing_world; log := [] |}
              (add_log {| files := trailing_world; log := [] |}
                 (INFO, AddedNew "New Guy" 3))
              3 2)
    as (st' & Hrun & Hreg & _ & HC & _ & _ & _ & HB).
  - reflexivity.
  - vm_compute. reflexivity.
  - vm_compute. lia.
  - apply py_max_b_rows. reflexivity.
  - reflexivity.
  - lia.
  - split; reflexivity.
  - vm_compute. intros H. discriminate H.
  - vm_compute. intros H. discriminate H.
  - exists st'. split; [exact Hrun|]. split; [exact Hreg|]. split; [exact HC|].
    apply HB. vm_compute. lia.
Defined.

(** ** The window *)

Lemma selection_valid_checks env a :
  selection_valid env a ->
  String.eqb (csv_file_path a) "No file selected"
  || negb (path_exists env (csv_file_path a)) = false
  /\ String.eqb (xlsx_file_path a) "No file selected"
     || negb (path_exists env (xlsx_file_path a)) = false.
Proof.
  intros (H1 & H2 & H3 & H4). rewrite H2, H4.
  apply String.eqb_neq in H1, H3. rewrite H1, H3. split; reflexivity.
Qed.

Lemma downloads_ready_check env :
  downloads_ready env ->
  (if path_exists env (downloads_folder env) then None
   else makedirs_fault env (downloads_folder env)) = None.
Proof.
  intros [H|H]; [rewrite H; reflexivity|].
  destruct (path_exists env (downloads_folder env)); [reflexivity|exact H].
Qed.

Lemma on_exception_facts e a :
  exists d s, on_exception e a = set_status s (show d a).
Proof.
  unfold on_exception.
  destruct (is_FileNotFoundError e); [eauto|].
  destruct (is_PermissionError e); [eauto|].
  destruct (is_KeyError e); eauto.
Qed.

Lemma read_pos_csv_files csv_path m : files (read_pos_csv csv_path m).2 = files m.
Proof.
  unfold read_pos_csv, try_except.
  assert (Hbody : files (read_pos_csv_body csv_path m).2 = files m).
  { unfold read_pos_csv_body, mbind, M_bind, pd_read_csv_usecols, mbind, M_bind,
      pd_read_csv, lift, raise.
    destruct (csv_files (files m) !! csv_path) as [[e|full]|] eqn:Ef; try reflexivity.
    destruct (scan_cutoff _ _ _) as [[k|]|e]; simpl; try reflexivity; rewrite ?Ef;
      destruct (index_of "Name" (columns full)),
               (index_of "Work Hours" (columns full));
      simpl; try reflexivity;
      destruct (List.filter _ _); reflexivity. }
  destruct (read_pos_csv_body csv_path m) as [[r|e] m1]; simpl in *; [exact Hbody|].
  destruct (is_FileNotFoundError e); simpl; exact Hbody.
Qed.

(** How a call of [run_processing] ends, whatever the window and the
    files. *)
Lemma run_processing_cases env num_str a m :
  exists d s b m',
    run_processing env num_str (a, m)
    = ({| csv_file_path := csv_file_path a;
          xlsx_file_path := xlsx_file_path a;
          selected_week := selected_week a;
          status_message := s;
          run_button := b;
          dialogs := dialogs a ++ [d] |}, m')
    /\ (b = NORMAL \/ b = run_button a)
    /\ (files m' = files m
        \/ exists ws,
             files m' = saved (files m) (output_path_of env (xlsx_file_path a)) ws).
Proof.
  unfold run_processing.
  destruct (String.eqb (csv_file_path a) "No file selected"
            || negb (path_exists env (csv_file_path a))).
  { eexists _, _, _, _. split; [reflexivity|]. split; [right|left]; reflexivity. }
  destruct (String.eqb (xlsx_file_path a) "No file selected"
            || negb (path_exists env (xlsx_file_path a))).
  { eexists _, _, _, _. split; [reflexivity|]. split; [right|left]; reflexivity. }
  cbv zeta.
  destruct (if path_exists env (downloads_folder env) then None
            else makedirs_fault env (downloads_folder env)) as [e|].
  { destruct (on_exception_facts e
                (set_status "Processing..." (config_run_button DISABLED a)))
      as (d & s & ->).
    eexists _, _, _, _. split; [reflexivity|]. split; left; reflexivity. }
  pose proof (read_pos_csv_files (csv_file_path a) m) as Hread.
  destruct (read_pos_csv (csv_file_path a) m) as [[[pos_data|]|e] m1];
    simpl in Hread.
  - pose proof (process_excel_cases num_str (xlsx_file_path a) (Some pos_data)
                  (selected_week a) (output_path_of env (xlsx_file_path a)) m1)
      as Hcases.
    cbv zeta in Hcases.
    assert (Hfiles : files (process_excel num_str (xlsx_file_path a) (Some pos_data)
                              (selected_week a)
                              (output_path_of env (xlsx_file_path a)) m1).2
                     = files m
                     \/ exists ws,
                          files (process_excel num_str (xlsx_file_path a)
                                   (Some pos_data) (selected_week a)
                                   (output_path_of env (xlsx_file_path a)) m1).2
                          = saved (files m) (output_path_of env (xlsx_file_path a)) ws).
    { destruct Hcases as [(Hf & _)|(ws & Hf & _)]; rewrite Hf, Hread; eauto. }
    clear Hcases.
    destruct (process_excel num_str (xlsx_file_path a) (Some pos_data)
                (selected_week a) (output_path_of env (xlsx_file_path a)) m1)
      as [[[[|] message]|e] m2]; simpl in Hfiles.
    + eexists _, _, _, _. split; [reflexivity|]. split; [left; reflexivity|exact Hfiles].
    + eexists _, _, _, _. split; [reflexivity|]. split; [left; reflexivity|exact Hfiles].
    + destruct (on_exception_facts e
                  (set_status "Processing Excel..."
                     (set_status "Reading CSV..."
                        (set_status "Processing..."
                           (config_run_button DISABLED a)))))
        as (d & s & ->).
      eexists _, _, _, _. split; [reflexivity|]. split; [left; reflexivity|exact Hfiles].
  - eexists _, _, _, _. split; [reflexivity|].
    split; [left; reflexivity|left; exact Hread].
  - destruct (on_exception_facts e
                (set_status "Reading CSV..."
                   (set_status "Processing..." (config_run_button DISABLED a))))
      as (d & s & ->).
    eexists _, _, _, _. split; [reflexivity|].
    split; [left; reflexivity|left; exact Hread].
Qed.

(** Every call of [run_processing] shows exactly one dialog, leaves the
    selected paths and the week as they are, and leaves the run button
    enabled when it was enabled before.  On a window on which no file has
    been chosen yet it only asks for a CSV file. *)
Theorem run_processing_one_dialog (env : os) (num_str : Q -> string)
    (a : ExcelProcessorApp) (m : machine) :
  let r := run_processing env num_str (a, m) in
  (exists d, dialogs r.1 = dialogs a ++ [d])
  /\ csv_file_path r.1 = csv_file_path a
  /\ xlsx_file_path r.1 = xlsx_file_path a
  /\ selected_week r.1 = selected_week a
  /\ (run_button a = NORMAL -> run_button r.1 = NORMAL)
  /\ run_processing env num_str (init, m)
     = (show (showerror "Error" "Please select a valid POS CSV file.") init, m).
Proof.
  intros r. subst r.
  destruct (run_processing_cases env num_str a m) as (d & s & b & m' & -> & Hb & _).
  simpl. split; [exists d; reflexivity|]. repeat (split; [reflexivity|]).
  split; [|reflexivity]. intros Ha. destruct Hb as [->| ->]; [reflexivity|exact Ha].
Qed.

(** ** The output path *)

Lemma join_file_name d f :
  file_name (list_ascii_of_string f) ->
  PurePath.name (list_ascii_of_string (os_path.join d f)) = list_ascii_of_string f.
Proof.
  intros Hf. pose proof Hf as (Hs & Hne & _). unfold os_path.join.
  destruct f as [|c f']; [contradiction|].
  rewrite bool_decide_eq_false_2.
  2:{ intros ->. apply Hs. simpl. apply list_elem_of_here. }
  destruct (String.eqb_spec d "") as [->|Hd].
  - simpl orb. cbv iota. apply name_of_file_name. exact Hf.
  - simpl orb.
    destruct (decide (last (list_ascii_of_string d) = Some "/"%char)) as [El|El].
    + rewrite bool_decide_eq_true_2 by exact El.
      apply last_Some in El. destruct El as [l El].
      rewrite chars_app, El, <- app_assoc. apply name_of_path. exact Hf.
    + rewrite bool_decide_eq_false_2 by exact El.
      rewrite !chars_app. apply name_of_path. exact Hf.
Qed.

Lemma default_output_is_file_name p :
  file_name (list_ascii_of_string (generate_output_filename p default_suffix)).
Proof.
  apply output_is_file_name; [|discriminate|discriminate].
  apply (bool_decide_unpack _). vm_compute. exact I.
Qed.

Lemma output_path_name env xlsx_path :
  PurePath.name (list_ascii_of_string (output_path_of env xlsx_path))
  = list_ascii_of_string (generate_output_filename xlsx_path default_suffix).
Proof. apply join_file_name, default_output_is_file_name. Qed.

(** The output path is never the path of the template. *)
Lemma output_path_fresh env xlsx_path : output_path_of env xlsx_path <> xlsx_path.
Proof.
  intros E. pose proof (output_path_name env xlsx_path) as Hname.
  rewrite E, generate_output_filename_chars, <- stem_suffix in Hname.
  apply (f_equal (@length _)) in Hname. rewrite !length_app in Hname.
  simpl in Hname. lia.
Qed.

(** A call of [run_processing] never changes the template or a CSV
    file: the only file it can write is the one in the downloads folder
    named after the template, with [_processed] before the extension, and
    the path of that file is never the path of the template. *)
Theorem run_processing_keeps_inputs (env : os) (num_str : Q -> string)
    (a : ExcelProcessorApp) (m : machine) :
  let r := run_processing env num_str (a, m) in
  let out := output_path_of env (xlsx_file_path a) in
  csv_files (files r.2) = csv_files (files m)
  /\ workbooks (files r.2) !! xlsx_file_path a
     = workbooks (files m) !! xlsx_file_path a
  /\ (forall p, p <> out ->
        workbooks (files r.2) !! p = workbooks (files m) !! p)
  /\ out <> xlsx_file_path a
  /\ PurePath.name (list_ascii_of_string out)
     = list_ascii_of_string
         (generate_output_filename (xlsx_file_path a) default_suffix).
Proof.
  intros r out. subst r out.
  pose proof (output_path_fresh env (xlsx_file_path a)) as Hfresh.
  destruct (run_processing_cases env num_str a m)
    as (d & s & b & m' & -> & _ & [Hf|(ws & Hf)]); simpl; rewrite Hf.
  - split; [reflexivity|]. split; [reflexivity|]. split; [reflexivity|].
    split; [exact Hfresh|apply output_path_name].
  - unfold saved. simpl. split; [reflexivity|].
    split; [apply lookup_insert_ne; exact Hfresh|].
    split; [intros p Hp; apply lookup_insert_ne; congruence|].
    split; [exact Hfresh|apply output_path_name].
Qed.

(** When the loader gives no frame, the run stops there: one dialog
    names the CSV file, the status says that the read failed, the button
    is enabled again, and the merger is not called, so no workbook is
    written and the log holds what the loader logged. *)
Theorem csv_failure_stops_run (env : os) (num_str : Q -> string)
    (a : ExcelProcessorApp) (m m1 : machine)
    (Hsel : selection_valid env a)
    (Hdl : downloads_ready env)
    (Hread : read_pos_csv (csv_file_path a) m = (Return None, m1)) :
  run_processing env num_str (a, m)
  = ({| csv_file_path := csv_file_path a;
        xlsx_file_path := xlsx_file_path a;
        selected_week := selected_week a;
        status_message := "CSV read failed.";
        run_button := NORMAL;
        dialogs := dialogs a
                   ++ [showerror "CSV Read Error"
                         ("Failed to read or process CSV file: "
                          ++ os_path.basename (csv_file_path a)
                          ++ ". Check logs or file format.")] |}, m1)
  /\ files m1 = files m.
Proof.
  destruct (selection_valid_checks env a Hsel) as [H1 H2].
  pose proof (read_pos_csv_files (csv_file_path a) m) as Hfiles.
  rewrite Hread in Hfiles. split; [|exact Hfiles].
  unfold run_processing. rewrite H1, H2. cbv zeta.
  rewrite (downloads_ready_check env Hdl), Hread. reflexivity.
Qed.

Lemma csv_failure_stops_run_witness :
  exists m1,
    run_processing desk (fun _ => "") (desk_app, {| files := headless_desk_world; log := [] |})
    = ({| csv_file_path := "/home/me/pos.csv";
          xlsx_file_path := "/home/me/payroll.xlsx";
          selected_week := "Week 2";
          status_message := "CSV read failed.";
          run_button := NORMAL;
          dialogs := [] ++ [showerror "CSV Read Error"
                              ("Failed to read or process CSV file: "
                               ++ os_path.basename "/home/me/pos.csv"
                               ++ ". Check logs or file format.")] |}, m1)
    /\ files m1 = headless_desk_world.
Proof.
  eexists.
  apply (csv_failure_stops_run desk (fun _ => "") desk_app
           {| files := headless_desk_world; log := [] |}).
  - repeat split; discriminate.
  - right. reflexivity.
  - vm_compute. reflexivity.
Defined.


